(** * reproduce_lyrics.py: the romaji lyrics scanner

    A shallow embedding of [search_track_with_lyrics] from
    [src/reproduce_lyrics.py] and the properties of it that the
    specification states.

    The script talks to an HTTP service, prints to standard output and
    relies on Python's dynamic typing, so the embedding has three layers:

    - [Py]: the Python values that [json.loads] can produce and the
      built-in operations the script applies to them, each with the
      exception it raises on a value of the wrong type;
    - [Urllib]: [urllib.parse.quote(_, safe='')];
    - [Scanner]: the script itself, written in a state-and-exception
      monad over an arbitrary HTTP service.

    The state is the service and the log of what the script has printed
    and requested so far; an exception leaves the log as it is, which is
    how the [except] clause finds it.  The statements are about the
    log, about the way the [try] block is left and about the exit
    status of the script.

    Two things of the interpreter matter.  Standard output is taken to
    be UTF-8, so that [print] raises [UnicodeEncodeError] exactly on a
    text with a lone surrogate (which JSON can carry).  And slicing a
    dict raises a [TypeError] up to Python 3.11 and a [KeyError] from
    3.12 on, where slices are hashable: the script is modelled for
    both. *)

From Stdlib Require Import String Ascii List Bool NArith ZArith Lia SpecFloat.
Import ListNotations.

Set Implicit Arguments.
Set Warnings "-register-all".

(* ================================================================= *)
(** ** Python values *)

Module Py.

(** A Python [str] is a sequence of Unicode code points. *)
Definition pystr := list N.

(** An ASCII literal of the source as a [pystr]. *)
Definition str (s : string) : pystr :=
  map N_of_ascii (list_ascii_of_string s).

Definition str_eqb (a b : pystr) : bool :=
  if list_eq_dec N.eq_dec a b then true else false.

(** What [json.loads] returns: [None], [bool], [int], [float], [str],
    [list] and [dict] with [str] keys.  A [dict] is kept as the list of
    its items, one binding per key. *)
Inductive value : Type :=
| JNull
| JBool (b : bool)
| JInt (z : Z)
| JFloat (f : spec_float)
| JStr (s : pystr)
| JArr (items : list value)
| JObj (fields : list (pystr * value)).

(** The exceptions the script can meet; all are subclasses of
    [Exception].  [LibraryError] is whatever [requests.get] or
    [Response.json] raise (connection errors, JSON decoding errors),
    with its [str()]. *)
Inductive exn : Type :=
| LibraryError (msg : pystr)
| TypeError
| KeyError (key : pystr)
| KeyErrorSlice (stop : nat)
| AttributeError
| UnicodeEncodeError.

(** The interpreter (Python 3.7 or later), as far as the script can
    tell its versions apart: from Python 3.12 on
    a slice is hashable, so that [d[:n]] on a dict is a lookup of the
    key [slice(None, n, None)] and raises [KeyError]
    ([KeyErrorSlice n]); before, it raises
    [TypeError: unhashable type: 'slice']. *)
Inductive python : Type :=
| UpTo311
| From312.

Inductive result (A : Type) : Type :=
| Ok (a : A)
| Raise (e : exn).
Arguments Ok {A} a.
Arguments Raise {A} e.

(** [d[k]] on the items of a dict. *)
Fixpoint lookup (k : pystr) (fields : list (pystr * value)) : option value :=
  match fields with
  | [] => None
  | (k', v) :: rest => if str_eqb k k' then Some v else lookup k rest
  end.

(** [len(v)] *)
Definition py_len (v : value) : result Z :=
  match v with
  | JArr items => Ok (Z.of_nat (length items))
  | JObj fields => Ok (Z.of_nat (length fields))
  | JStr s => Ok (Z.of_nat (length s))
  | _ => Raise TypeError
  end.

(** [v[:n]].  A list and a string are sliced; a dict raises what its
    interpreter raises; [None], a bool and a number are not
    subscriptable. *)
Definition py_slice (py : python) (n : nat) (v : value) : result value :=
  match v with
  | JArr items => Ok (JArr (firstn n items))
  | JStr s => Ok (JStr (firstn n s))
  | JObj _ =>
      match py with
      | UpTo311 => Raise TypeError
      | From312 => Raise (KeyErrorSlice n)
      end
  | _ => Raise TypeError
  end.

(** The items [for x in v] runs through. *)
Definition py_iter (v : value) : result (list value) :=
  match v with
  | JArr items => Ok items
  | JStr s => Ok (map (fun c => JStr [c]) s)
  | JObj fields => Ok (map (fun kv => JStr (fst kv)) fields)
  | _ => Raise TypeError
  end.

(** [v[k]] for a [str] key [k]. *)
Definition py_getitem (v : value) (k : pystr) : result value :=
  match v with
  | JObj fields =>
      match lookup k fields with
      | Some x => Ok x
      | None => Raise (KeyError k)
      end
  | _ => Raise TypeError
  end.

(** [v.get(k, default)]; only a dict has the method. *)
Definition py_get (v : value) (k : pystr) (default : value) : result value :=
  match v with
  | JObj fields =>
      match lookup k fields with
      | Some x => Ok x
      | None => Ok default
      end
  | _ => Raise AttributeError
  end.

(** Truth value testing. *)
Definition py_truthy (v : value) : bool :=
  match v with
  | JNull => false
  | JBool b => b
  | JInt z => negb (z =? 0)%Z
  | JFloat (S754_zero _) => false
  | JFloat _ => true
  | JStr s => match s with [] => false | _ => true end
  | JArr items => match items with [] => false | _ => true end
  | JObj fields => match fields with [] => false | _ => true end
  end.

(** [a or b] *)
Definition py_or (a b : value) : value :=
  if py_truthy a then a else b.

Fixpoint starts_with (p s : pystr) : bool :=
  match p, s with
  | [], _ => true
  | _ :: _, [] => false
  | a :: p', b :: s' => (a =? b)%N && starts_with p' s'
  end.

(** [p in s] for two strings. *)
Fixpoint contains (p s : pystr) : bool :=
  starts_with p s ||
  match s with
  | [] => false
  | _ :: s' => contains p s'
  end.

(** [p in v] for a [str] [p]: substring of a [str], element of a [list],
    key of a [dict]; [TypeError] on the rest. *)
Definition py_in (p : pystr) (v : value) : result bool :=
  match v with
  | JStr s => Ok (contains p s)
  | JArr items =>
      Ok (existsb (fun x => match x with JStr t => str_eqb p t | _ => false end)
                  items)
  | JObj fields => Ok (existsb (fun kv => str_eqb p (fst kv)) fields)
  | _ => Raise TypeError
  end.

End Py.

(* ================================================================= *)
(** ** [urllib.parse.quote] *)

Module Urllib.
Import Py.
Local Open Scope N_scope.

(** UTF-8 ([str.encode('utf-8', 'strict')]) of one code point;
    surrogates cannot be encoded. *)
Definition utf8_char (c : N) : option (list N) :=
  if c <? 128 then Some [c]
  else if c <? 2048 then Some [192 + c / 64; 128 + c mod 64]
  else if c <? 65536 then
    if (55296 <=? c) && (c <=? 57343) then None
    else Some [224 + c / 4096; 128 + (c / 64) mod 64; 128 + c mod 64]
  else if c <? 1114112 then
    Some [240 + c / 262144; 128 + (c / 4096) mod 64;
          128 + (c / 64) mod 64; 128 + c mod 64]
  else None.

Fixpoint utf8 (s : pystr) : option (list N) :=
  match s with
  | [] => Some []
  | c :: s' =>
      match utf8_char c, utf8 s' with
      | Some bs, Some rest => Some (bs ++ rest)
      | _, _ => None
      end
  end.

(** [_ALWAYS_SAFE]: letters, digits and [_.-~]. *)
Definition always_safe (b : N) : bool :=
  ((65 <=? b) && (b <=? 90)) || ((97 <=? b) && (b <=? 122)) ||
  ((48 <=? b) && (b <=? 57)) ||
  (b =? 95) || (b =? 46) || (b =? 45) || (b =? 126).

(** One digit of ['%{:02X}'.format(b)]. *)
Definition hex_digit (d : N) : N :=
  if d <? 10 then 48 + d else 55 + d.

Definition percent : N := 37.

(** With [safe=''] only the always-safe bytes stay as they are. *)
Definition quote_byte (b : N) : pystr :=
  if always_safe b then [b]
  else [percent; hex_digit (b / 16); hex_digit (b mod 16)].

Definition quote_bytes (bs : list N) : pystr :=
  flat_map quote_byte bs.

(** [urllib.parse.quote(v, safe='')]: a [str] is encoded to UTF-8 and
    quoted; a value that is neither [str] nor [bytes] is refused by
    [quote_from_bytes]. *)
Definition quote (v : value) : result pystr :=
  match v with
  | JStr s =>
      match utf8 s with
      | Some bs => Ok (quote_bytes bs)
      | None => Raise UnicodeEncodeError
      end
  | _ => Raise TypeError
  end.

(** Percent-decoding, the inverse the server applies to the path
    segment. *)
Definition hex_value (c : N) : option N :=
  if (48 <=? c) && (c <=? 57) then Some (c - 48)
  else if (65 <=? c) && (c <=? 70) then Some (c - 55)
  else if (97 <=? c) && (c <=? 102) then Some (c - 87)
  else None.

Fixpoint unquote_fuel (fuel : nat) (s : pystr) : list N :=
  match fuel with
  | O => s
  | S fuel' =>
      match s with
      | [] => []
      | c :: rest =>
          if c =? percent then
            match rest with
            | h :: l :: rest' =>
                match hex_value h, hex_value l with
                | Some x, Some y => (16 * x + y) :: unquote_fuel fuel' rest'
                | _, _ => c :: unquote_fuel fuel' rest
                end
            | _ => c :: unquote_fuel fuel' rest
            end
          else c :: unquote_fuel fuel' rest
      end
  end.

Definition unquote_to_bytes (s : pystr) : list N :=
  unquote_fuel (length s) s.

End Urllib.

(* ================================================================= *)
(** ** The scanner *)

Module Scanner.
Import Py Urllib.

(** A response of the service: what the script reads from it is
    [status_code] and the outcome of [.json()]. *)
Record response : Type := Response {
  status_code : Z;
  json : result value
}.

(** What the script does that can be observed from outside: the lines it
    prints and the requests it sends.  A printed line is kept as the
    pieces of its f-string: literal text, formatted values (the [str()]
    of a [str] is the string itself) and the formatted exception. *)
Inductive piece : Type :=
| Text (s : pystr)
| Val (v : value)
| Exc (e : exn).

Inductive event : Type :=
| Print (line : list piece)
| Get (url : pystr).

(** How one pass through the loop body ends: at its end, or in the
    [return] of the match branch. *)
Inductive flow : Type :=
| Next
| Return.

Definition library_url : pystr := str "http://localhost:5000/api/library".
Definition lyrics_base : pystr := str "http://localhost:5000/api/lyrics/".
Definition marker : pystr := str " / ".
Definition newline : N := 10%N.

(** What [print] can write to a UTF-8 standard output: every text but
    one with a lone surrogate, which the codec refuses.  The [str()] of
    a string is the string; that of any other JSON value is its [repr],
    in which a surrogate inside a string is escaped; the [str()] of the
    exceptions met here is ASCII. *)
Definition encodable (s : pystr) : bool :=
  match utf8 s with
  | Some _ => true
  | None => false
  end.

Definition printable_value (v : value) : bool :=
  match v with
  | JStr s => encodable s
  | _ => true
  end.

Definition printable_piece (p : piece) : bool :=
  match p with
  | Text s => encodable s
  | Val v => printable_value v
  | Exc _ => true
  end.

Definition printable (line : list piece) : bool :=
  forallb printable_piece line.

Section Run.

(** The interpreter that runs the script. *)
Variable py : python.

(** The service is any state machine that answers a GET, with a
    response or with an exception of [requests]. *)
Variable World : Type.
Variable http_get : pystr -> World -> result response * World.

Record state : Type := State {
  world : World;
  log : list event
}.

(** State and exceptions: what was printed and requested before an
    exception stays. *)
Definition M (A : Type) : Type := state -> result A * state.

Definition ret {A} (a : A) : M A := fun s => (Ok a, s).

Definition bind {A B} (m : M A) (k : A -> M B) : M B :=
  fun s =>
    match m s with
    | (Ok a, s') => k a s'
    | (Raise e, s') => (Raise e, s')
    end.

Definition lift {A} (r : result A) : M A := fun s => (r, s).

Definition try_except {A} (body : M A) (handler : exn -> M A) : M A :=
  fun s =>
    match body s with
    | (Ok a, s') => (Ok a, s')
    | (Raise e, s') => handler e s'
    end.

(** [print(line)]: the line is written whole, or the encoder raises
    and nothing is written. *)
Definition print (line : list piece) : M unit :=
  fun s =>
    if printable line
    then (Ok tt, State (world s) (log s ++ [Print line]))
    else (Raise UnicodeEncodeError, s).

Definition requests_get (url : pystr) : M response :=
  fun s =>
    let (r, w) := http_get url (world s) in
    (r, State w (log s ++ [Get url])).

Local Notation "x <- m ;; k" := (bind m (fun x => k))
  (at level 61, m at next level, right associativity).
Local Notation "m ;;; k" := (bind m (fun _ => k))
  (at level 61, right associativity).

(** [data.get(key, '') or ''] *)
Definition field_or_empty (data : value) (key : pystr) : result value :=
  match py_get data key (JStr []) with
  | Ok v => Ok (py_or v (JStr []))
  | Raise e => Raise e
  end.

(** The body of the [for] loop. *)
Definition check_track (track : value) : M flow :=
  path <- lift (py_getitem track (str "path")) ;;
  print [Text (str "Checking: "); Val path] ;;;
  encoded_path <- lift (quote path) ;;
  let url := lyrics_base ++ encoded_path in
  r_lyrics <- requests_get url ;;
  if (status_code r_lyrics =? 200)%Z then
    data <- lift (json r_lyrics) ;;
    synced <- lift (field_or_empty data (str "syncedLyrics")) ;;
    plain <- lift (field_or_empty data (str "plainLyrics")) ;;
    found <- lift (py_in marker synced) ;;
    if found then
      print [Text (newline :: str "FOUND ROMAJI LYRICS for "); Val path;
             Text (str "!")] ;;;
      print [Text (str "--- Snippet ---")] ;;;
      snippet <- lift (py_slice py 200 synced) ;;
      print [Val snippet] ;;;
      print [Text (str "--- End Snippet ---")] ;;;
      ret Return
    else if py_truthy synced then
      print [Text (str "Found lyrics (no romaji detected yet)")] ;;;
      ret Next
    else ret Next
  else ret Next.

(** [for track in ...: check_track], left by the body's [return]. *)
Fixpoint for_tracks (tracks : list value) : M flow :=
  match tracks with
  | [] => ret Next
  | track :: rest =>
      f <- check_track track ;;
      match f with
      | Return => ret Return
      | Next => for_tracks rest
      end
  end.

(** The [try] block. *)
Definition scan_body : M flow :=
  r <- requests_get library_url ;;
  tracks <- lift (json r) ;;
  n <- lift (py_len tracks) ;;
  print [Text (str "Checking "); Val (JInt n); Text (str " tracks...")] ;;;
  first20 <- lift (py_slice py 20 tracks) ;;
  items <- lift (py_iter first20) ;;
  for_tracks items.

Definition search_track_with_lyrics : M unit :=
  try_except (scan_body ;;; ret tt)
             (fun e => print [Text (str "Error: "); Exc e]).

(** The script: the exit status is 0 when the function returns and 1
    when an exception leaves it. *)
Definition main (w : World) : Z * list event :=
  match search_track_with_lyrics (State w []) with
  | (Ok _, s) => (0%Z, log s)
  | (Raise _, s) => (1%Z, log s)
  end.

(** *** Reading a log *)

Definition requests (l : list event) : list pystr :=
  flat_map (fun ev => match ev with Get url => [url] | Print _ => [] end) l.

Definition printed (l : list event) : list (list piece) :=
  flat_map (fun ev => match ev with Print line => [line] | Get _ => [] end) l.

Definition is_error_line (line : list piece) : bool :=
  match line with
  | [Text _; Exc _] => true
  | _ => false
  end.

(** The URL the loop body requests for a track, when it gets that far. *)
Definition track_url (track : value) : option pystr :=
  match py_getitem track (str "path") with
  | Ok path =>
      match quote path with
      | Ok encoded_path => Some (lyrics_base ++ encoded_path)
      | Raise _ => None
      end
  | Raise _ => None
  end.

End Run.

End Scanner.

(* ================================================================= *)
(** ** Vocabulary of the statements *)

Module Spec.
Import Py Urllib Scanner.

(** The lines of the script, as they appear in a log. *)
Definition header_line (n : Z) : list piece :=
  [Text (str "Checking "); Val (JInt n); Text (str " tracks...")].

Definition checking_line (path : value) : list piece :=
  [Text (str "Checking: "); Val path].

Definition found_line (path : value) : list piece :=
  [Text (newline :: str "FOUND ROMAJI LYRICS for "); Val path; Text (str "!")].

Definition progress_line : list piece :=
  [Text (str "Found lyrics (no romaji detected yet)")].

Definition error_line (e : exn) : list piece :=
  [Text (str "Error: "); Exc e].

(** The four lines of the match report. *)
Definition match_report (path : value) (snippet : pystr) : list event :=
  [Print (found_line path); Print [Text (str "--- Snippet ---")];
   Print [Val (JStr snippet)]; Print [Text (str "--- End Snippet ---")]].

(** The log once the library is listed and its size printed. *)
Definition listed (n : nat) : list event :=
  [Get library_url; Print (header_line (Z.of_nat n))].

(** A field of the lyrics object as the data model has it: absent,
    null or a string; and the text it stands for. *)
Definition optional_string (o : option value) : Prop :=
  o = None \/ o = Some JNull \/ exists s, o = Some (JStr s).

Definition text_of (o : option value) : pystr :=
  match o with
  | Some (JStr s) => s
  | _ => []
  end.

(** [s] has [p] as a substring. *)
Definition substring (p s : pystr) : Prop :=
  exists before after, s = before ++ p ++ after.


Definition is_byte (b : N) : Prop := (b < 256)%N.

(** What a quoted string is made of. *)
Definition quoted_char (c : N) : Prop := always_safe c = true \/ c = percent.

(** The loop body after its request, as a function of the answer: how
    the body ends and the lines it prints on the way, for a path that
    could be printed.  [check_track_unfold] below shows that
    [check_track] is this. *)
Definition verdict (py : python) (path : value) (answer : result response)
  : result flow * list (list piece) :=
  match answer with
  | Raise e => (Raise e, [])
  | Ok r =>
      if (status_code r =? 200)%Z then
        match json r with
        | Raise e => (Raise e, [])
        | Ok data =>
            match field_or_empty data (str "syncedLyrics"),
                  field_or_empty data (str "plainLyrics") with
            | Raise e, _ => (Raise e, [])
            | Ok _, Raise e => (Raise e, [])
            | Ok synced, Ok _ =>
                match py_in marker synced with
                | Raise e => (Raise e, [])
                | Ok true =>
                    match py_slice py 200 synced with
                    | Raise e =>
                        (Raise e,
                         [found_line path; [Text (str "--- Snippet ---")]])
                    | Ok snippet =>
                        if printable_value snippet then
                          (Ok Return,
                           [found_line path; [Text (str "--- Snippet ---")];
                            [Val snippet]; [Text (str "--- End Snippet ---")]])
                        else
                          (Raise UnicodeEncodeError,
                           [found_line path; [Text (str "--- Snippet ---")]])
                    end
                | Ok false =>
                    (Ok Next, if py_truthy synced then [progress_line] else [])
                end
            end
        end
      else (Ok Next, [])
  end.

(** The events of a scan that goes on: requests, and the two lines that
    are not a report. *)
Definition quiet (ev : event) : Prop :=
  match ev with
  | Get _ => True
  | Print line => (exists path, line = checking_line path) \/ line = progress_line
  end.

(** The lines the [try] block can print: anything but the handler's. *)
Definition from_body (ev : event) : Prop :=
  match ev with
  | Get _ => True
  | Print line => is_error_line line = false
  end.

Definition url_list (o : option pystr) : list pystr :=
  match o with
  | Some u => [u]
  | None => []
  end.

(** Two lyrics bodies that differ at most in [plainLyrics]: equal, or
    two objects with the same value (or none) under every other key. *)
Definition same_but_plain (a b : value) : Prop :=
  a = b \/
  exists fa fb,
    a = JObj fa /\ b = JObj fb /\
    forall key, key <> str "plainLyrics" -> lookup key fa = lookup key fb.

Definition responses_alike (a b : result response) : Prop :=
  match a, b with
  | Raise e, Raise e' => e = e'
  | Ok r, Ok r' =>
      status_code r = status_code r' /\
      match json r, json r' with
      | Raise e, Raise e' => e = e'
      | Ok d, Ok d' => same_but_plain d d'
      | _, _ => False
      end
  | _, _ => False
  end.

(** Two states, of two services related by [R], with the same log; two
    runs that end the same way in such states. *)
Definition alike {W1 W2} (R : W1 -> W2 -> Prop)
    (s1 : state W1) (s2 : state W2) : Prop :=
  log s1 = log s2 /\ R (world s1) (world s2).

Definition same_run {W1 W2 A} (R : W1 -> W2 -> Prop)
    (x : result A * state W1) (y : result A * state W2) : Prop :=
  fst x = fst y /\ alike R (snd x) (snd y).

(** Reading a quoted path back: UTF-8 decoding of the percent-decoded
    bytes.  The decoder takes the length of a sequence from its first
    byte. *)
Definition utf8_decode_char (bs : list N) : option (N * list N) :=
  match bs with
  | [] => None
  | b0 :: r =>
      if (b0 <? 128)%N then Some (b0, r)
      else if (b0 <? 224)%N then
        match r with
        | b1 :: r' => Some (((b0 - 192) * 64 + (b1 - 128))%N, r')
        | _ => None
        end
      else if (b0 <? 240)%N then
        match r with
        | b1 :: b2 :: r' =>
            Some ((((b0 - 224) * 64 + (b1 - 128)) * 64 + (b2 - 128))%N, r')
        | _ => None
        end
      else
        match r with
        | b1 :: b2 :: b3 :: r' =>
            Some (((((b0 - 240) * 64 + (b1 - 128)) * 64 + (b2 - 128)) * 64
                   + (b3 - 128))%N, r')
        | _ => None
        end
  end.

Fixpoint utf8_decode_fuel (fuel : nat) (bs : list N) : option pystr :=
  match bs with
  | [] => Some []
  | _ :: _ =>
      match fuel with
      | O => None
      | S fuel' =>
          match utf8_decode_char bs with
          | Some (c, r) => option_map (cons c) (utf8_decode_fuel fuel' r)
          | None => None
          end
      end
  end.

Definition unquote (q : pystr) : option pystr :=
  let bs := unquote_to_bytes q in utf8_decode_fuel (length bs) bs.

(** The first line of the match report. *)
Definition is_found_line (line : list piece) : bool :=
  match line with
  | [Text t; Val _; Text _] =>
      str_eqb t (newline :: str "FOUND ROMAJI LYRICS for ")
  | _ => false
  end.

(** The match report for a snippet of any type. *)
Definition report_of (path snippet : value) : list event :=
  [Print (found_line path); Print [Text (str "--- Snippet ---")];
   Print [Val snippet]; Print [Text (str "--- End Snippet ---")]].

(** A lyrics response that is no match, with the fields of the data
    model: any status but 200, or an object whose [syncedLyrics] is
    absent, null or a string without the marker. *)
Definition no_match (resp : response) : Prop :=
  status_code resp <> 200%Z \/
  exists fields,
    json resp = Ok (JObj fields) /\
    optional_string (lookup (str "syncedLyrics") fields) /\
    contains marker (text_of (lookup (str "syncedLyrics") fields)) = false.

(** The service, asked for the lyrics of these tracks one after the
    other from the state [w], answers each of them, and with no
    match. *)
Fixpoint unmatched {World : Type}
    (http_get : pystr -> World -> result response * World)
    (tracks : list value) (w : World) : Prop :=
  match tracks with
  | [] => True
  | track :: rest =>
      exists path quoted resp w',
        py_getitem track (str "path") = Ok path /\
        quote path = Ok quoted /\
        http_get (lyrics_base ++ quoted) w = (Ok resp, w') /\
        no_match resp /\
        unmatched http_get rest w'
  end.


(** The JSON scalars that have no [in]. *)
Definition is_scalar (v : value) : bool :=
  match v with
  | JBool _ | JInt _ | JFloat _ => true
  | _ => false
  end.

(** A lyrics URL: under [/api/lyrics/], with a path segment made of
    always-safe characters and percent escapes. *)
Definition lyrics_request (url : pystr) : Prop :=
  exists quoted,
    url = lyrics_base ++ quoted /\ Forall quoted_char quoted.

End Spec.

(* ================================================================= *)
(** ** Services to run the script against *)

Module Service.
Import Py Scanner.

(** A service that answers by URL alone, from a table; a URL that is
    not in the table gets a 404 whose body is not JSON. *)
Definition table : Type := list (pystr * response).

Definition not_found : response :=
  Response 404 (Raise (LibraryError (str "Expecting value"))).

Fixpoint answer (t : table) (url : pystr) : response :=
  match t with
  | [] => not_found
  | (u, r) :: rest => if str_eqb url u then r else answer rest url
  end.

Definition serve (t : table) (url : pystr) (w : unit)
  : result response * unit :=
  (Ok (answer t url), w).

Definition ok_json (v : value) : response := Response 200 (Ok v).

Definition track (path : string) : value :=
  JObj [(str "path", JStr (str path))].

Definition lyrics_url (quoted : string) : pystr :=
  lyrics_base ++ str quoted.

(** こんにちは *)
Definition konnichiwa : pystr :=
  str "konnichiwa / " ++ [12371; 12435; 12395; 12385; 12399]%N.

(** The scenario of the specification: [x.mp3] has plain lyrics only in
    its synced text, [y.mp3] has romaji. *)
Definition two_tracks : table :=
  [ (library_url, ok_json (JArr [track "x.mp3"; track "y.mp3"]));
    (lyrics_url "x.mp3",
     ok_json (JObj [(str "syncedLyrics", JStr (str "hello world"))]));
    (lyrics_url "y.mp3",
     ok_json (JObj [(str "syncedLyrics", JStr konnichiwa)])) ].

(** The same with [plainLyrics] filled in; the plain text of [x.mp3]
    has the marker. *)
Definition two_tracks_plain : table :=
  [ (library_url, ok_json (JArr [track "x.mp3"; track "y.mp3"]));
    (lyrics_url "x.mp3",
     ok_json (JObj [(str "syncedLyrics", JStr (str "hello world"));
                    (str "plainLyrics", JStr (str "hello / world"))]));
    (lyrics_url "y.mp3",
     ok_json (JObj [(str "syncedLyrics", JStr konnichiwa);
                    (str "plainLyrics", JNull)])) ].

(** Tracks [t00], [t01], ... *)
Definition numbered_track (i : nat) : value :=
  JObj [(str "path",
         JStr [116%N; N.of_nat (48 + i / 10); N.of_nat (48 + i mod 10)])].

(** A library of [n] tracks none of which has lyrics on the service. *)
Definition bare_library (n : nat) : table :=
  [ (library_url, ok_json (JArr (map numbered_track (seq 0 n)))) ].

(** A library whose only track has no [path]. *)
Definition pathless : table :=
  [ (library_url, ok_json (JArr [JObj []])) ].

(** A library whose only track has null synced lyrics. *)
Definition instrumental : table :=
  [ (library_url, ok_json (JArr [track "a/b c.mp3"]));
    (lyrics_url "a%2Fb%20c.mp3",
     ok_json (JObj [(str "syncedLyrics", JNull);
                    (str "plainLyrics", JStr (str "la la"))])) ].

(** A service given by the list of its answers, handed out in order
    whatever the URL; it raises a connection error when the list is
    used up. *)
Definition script : Type := list (result response).

Definition connection_error : exn := LibraryError (str "Connection refused").

Definition play (url : pystr) (w : script) : result response * script :=
  match w with
  | [] => (Raise connection_error, [])
  | a :: rest => (a, rest)
  end.

Definition romaji : value := JObj [(str "syncedLyrics", JStr konnichiwa)].


End Service.

(* ================================================================= *)
(** ** Facts about the Python operations *)

Module PyFacts.
Import Py Spec.

Lemma str_eqb_eq (a b : pystr) : str_eqb a b = true <-> a = b.
Proof.
  unfold str_eqb. destruct (list_eq_dec N.eq_dec a b); split; congruence.
Qed.

Lemma str_eqb_refl (a : pystr) : str_eqb a a = true.
Proof. now apply str_eqb_eq. Qed.

Lemma str_eqb_neq (a b : pystr) : a <> b -> str_eqb a b = false.
Proof.
  intros H. unfold str_eqb. now destruct (list_eq_dec N.eq_dec a b).
Qed.

Lemma starts_with_prefix (p s : pystr) :
  starts_with p s = true <-> exists rest, s = p ++ rest.
Proof.
  revert s. induction p as [|a p IH]; intros s; simpl.
  - split; eauto.
  - destruct s as [|b s].
    + split; [discriminate | intros [rest H]; discriminate].
    + rewrite andb_true_iff, N.eqb_eq, IH. split.
      * intros [-> [rest ->]]. now exists rest.
      * intros [rest H]. injection H as -> ->. eauto.
Qed.

(** [contains] decides the substring relation. *)
Lemma contains_substring (p s : pystr) :
  contains p s = true <-> substring p s.
Proof.
  unfold substring. induction s as [|c s IH]; simpl.
  - rewrite orb_false_r, starts_with_prefix. split.
    + intros [rest H]. now exists [], rest.
    + intros [before [rest H]].
      destruct before; [now exists rest | discriminate].
  - rewrite orb_true_iff, starts_with_prefix, IH. split.
    + intros [[rest H] | [before [rest H]]].
      * now exists [], rest.
      * exists (c :: before), rest. simpl. now rewrite H.
    + intros [[|c' before] [rest H]].
      * left. now exists rest.
      * right. injection H as -> ->. now exists before, rest.
Qed.


Lemma firstn_succ_nth {A} (d : A) (l : list A) : forall k,
  k < length l -> firstn (S k) l = firstn k l ++ [nth k l d].
Proof.
  induction l as [|a l IH]; intros k H; cbn in H; [lia|].
  destruct k as [|k]; [reflexivity|].
  cbn [firstn nth app]. rewrite <- IH by lia. reflexivity.
Qed.

End PyFacts.

(* ================================================================= *)
(** ** Facts about [quote] *)

Module UrllibFacts.
Import Py Urllib Spec.
Local Open Scope N_scope.

Ltac bool_to_prop :=
  repeat match goal with
  | H : _ && _ = true |- _ => apply andb_true_iff in H; destruct H
  | H : _ || _ = true |- _ => apply orb_true_iff in H; destruct H
  | H : _ && _ = false |- _ => apply andb_false_iff in H; destruct H
  | H : _ || _ = false |- _ => apply orb_false_iff in H; destruct H
  | H : (_ <=? _) = true |- _ => apply N.leb_le in H
  | H : (_ <=? _) = false |- _ => apply N.leb_gt in H
  | H : (_ <? _) = true |- _ => apply N.ltb_lt in H
  | H : (_ <? _) = false |- _ => apply N.ltb_ge in H
  | H : (_ =? _) = true |- _ => apply N.eqb_eq in H
  | H : (_ =? _) = false |- _ => apply N.eqb_neq in H
  end.

Lemma utf8_char_is_bytes (c : N) :
  match utf8_char c with
  | Some bs => Forall is_byte bs
  | None => True
  end.
Proof.
  unfold utf8_char, is_byte.
  destruct (c <? 128) eqn:H1; [|destruct (c <? 2048) eqn:H2;
    [|destruct (c <? 65536) eqn:H3;
      [destruct ((55296 <=? c) && (c <=? 57343)) eqn:H4
      |destruct (c <? 1114112) eqn:H4]]];
    trivial; bool_to_prop;
    repeat apply Forall_cons; try apply Forall_nil;
    try (pose proof (N.mod_upper_bound c 64 ltac:(lia)));
    try (pose proof (N.mod_upper_bound (c / 64) 64 ltac:(lia)));
    try (pose proof (N.mod_upper_bound (c / 4096) 64 ltac:(lia)));
    try (assert (c / 64 < 32) by (apply N.Div0.div_lt_upper_bound; lia));
    try (assert (c / 4096 < 16) by (apply N.Div0.div_lt_upper_bound; lia));
    try (assert (c / 262144 < 5) by (apply N.Div0.div_lt_upper_bound; lia));
    lia.
Qed.

Lemma utf8_char_bytes (c : N) (bs : list N) :
  utf8_char c = Some bs -> Forall is_byte bs.
Proof.
  intros H. pose proof (utf8_char_is_bytes c) as B. now rewrite H in B.
Qed.

Lemma utf8_bytes (s : pystr) (bs : list N) :
  utf8 s = Some bs -> Forall is_byte bs.
Proof.
  revert bs. induction s as [|c s IH]; simpl; intros bs H.
  - inversion H. constructor.
  - destruct (utf8_char c) as [b1|] eqn:Hc; [|discriminate].
    destruct (utf8 s) as [b2|]; [|discriminate].
    inversion H; subst. apply Forall_app. split.
    + eapply utf8_char_bytes; eauto.
    + now apply IH.
Qed.

Lemma hex_digit_safe (d : N) : d < 16 -> always_safe (hex_digit d) = true.
Proof.
  intros H. unfold hex_digit, always_safe.
  destruct (d <? 10) eqn:E; bool_to_prop.
  - replace ((48 <=? 48 + d) && (48 + d <=? 57)) with true.
    + now rewrite !orb_true_r.
    + symmetry. apply andb_true_iff. split; apply N.leb_le; lia.
  - replace ((65 <=? 55 + d) && (55 + d <=? 90)) with true by
      (symmetry; apply andb_true_iff; split; apply N.leb_le; lia).
    reflexivity.
Qed.

Lemma hex_value_digit (d : N) : d < 16 -> hex_value (hex_digit d) = Some d.
Proof.
  intros H. unfold hex_digit, hex_value.
  destruct (d <? 10) eqn:E; bool_to_prop.
  - replace ((48 <=? 48 + d) && (48 + d <=? 57)) with true by
      (symmetry; apply andb_true_iff; split; apply N.leb_le; lia).
    f_equal. lia.
  - replace ((48 <=? 55 + d) && (55 + d <=? 57)) with false by
      (symmetry; apply andb_false_iff; right; apply N.leb_gt; lia).
    replace ((65 <=? 55 + d) && (55 + d <=? 70)) with true by
      (symmetry; apply andb_true_iff; split; apply N.leb_le; lia).
    f_equal. lia.
Qed.

Lemma always_safe_not_percent (b : N) : always_safe b = true -> b <> percent.
Proof.
  unfold always_safe, percent. intros H ->. vm_compute in H. discriminate.
Qed.

Lemma quote_byte_chars (b : N) : is_byte b -> Forall quoted_char (quote_byte b).
Proof.
  intros Hb. unfold quote_byte, quoted_char, is_byte in *.
  destruct (always_safe b) eqn:E.
  - apply Forall_cons; [now left | apply Forall_nil].
  - repeat apply Forall_cons; try apply Forall_nil.
    + now right.
    + left. apply hex_digit_safe. apply N.Div0.div_lt_upper_bound. lia.
    + left. apply hex_digit_safe. apply N.mod_upper_bound. lia.
Qed.

Lemma quote_bytes_chars (bs : list N) :
  Forall is_byte bs -> Forall quoted_char (quote_bytes bs).
Proof.
  unfold quote_bytes. induction 1 as [|b bs Hb _ IH]; simpl.
  - constructor.
  - apply Forall_app. split; [now apply quote_byte_chars | exact IH].
Qed.


Lemma unquote_fuel_quote (bs : list N) :
  Forall is_byte bs ->
  forall fuel, (length (quote_bytes bs) <= fuel)%nat ->
  unquote_fuel fuel (quote_bytes bs) = bs.
Proof.
  unfold quote_bytes.
  induction 1 as [|b bs Hb _ IH]; intros fuel Hf.
  - destruct fuel; reflexivity.
  - simpl in *. unfold quote_byte in *. destruct (always_safe b) eqn:E.
    + simpl in *. destruct fuel as [|fuel]; [lia|]. simpl.
      destruct (b =? percent) eqn:P.
      * bool_to_prop. now apply always_safe_not_percent in E.
      * f_equal. apply IH. lia.
    + simpl in *. destruct fuel as [|fuel]; [lia|].
      unfold is_byte in Hb.
      cbn [unquote_fuel]. rewrite N.eqb_refl.
      rewrite !hex_value_digit
        by (try apply N.Div0.div_lt_upper_bound; try apply N.mod_upper_bound; lia).
      f_equal.
      * rewrite (N.div_mod b 16) at 3 by lia. reflexivity.
      * apply IH. lia.
Qed.

(** Decoding the quoted path gives back the UTF-8 bytes of the path. *)
Lemma unquote_quote (s : pystr) (q : pystr) :
  quote (JStr s) = Ok q -> utf8 s = Some (unquote_to_bytes q).
Proof.
  unfold quote. destruct (utf8 s) as [bs|] eqn:E; [|discriminate].
  intros H. inversion H; subst. unfold unquote_to_bytes.
  rewrite unquote_fuel_quote; eauto using utf8_bytes.
Qed.


End UrllibFacts.

(* ================================================================= *)
(** ** How the loop body and the loop run *)

Module ScannerFacts.
Import Py Urllib Scanner Spec PyFacts UrllibFacts.

(** Unfold the monad and compute, leaving the Python operations and the
    string constants alone. *)
Ltac run :=
  unfold scan_body, check_track, try_except, bind, lift, print,
    requests_get, ret;
  cbv beta iota zeta; cbn [world log fst snd];
  autorewrite with printing; cbv beta iota zeta; cbn [world log fst snd].

Ltac tidy := rewrite <- ?app_assoc; cbn [app].

(** *** What can be printed *)

Lemma printable_header (n : Z) :
  printable [Text (str "Checking "); Val (JInt n); Text (str " tracks...")]
    = true.
Proof. reflexivity. Qed.

Lemma printable_checking (path : value) :
  printable [Text (str "Checking: "); Val path] = printable_value path.
Proof.
  unfold printable. cbn [forallb printable_piece].
  change (encodable (str "Checking: ")) with true. cbn [andb].
  apply andb_true_r.
Qed.

Lemma printable_found (path : value) :
  printable [Text (newline :: str "FOUND ROMAJI LYRICS for "); Val path;
             Text (str "!")] = printable_value path.
Proof.
  unfold printable. cbn [forallb printable_piece].
  change (encodable (newline :: str "FOUND ROMAJI LYRICS for ")) with true.
  change (encodable (str "!")) with true. cbn [andb].
  apply andb_true_r.
Qed.

Lemma printable_snippet_header :
  printable [Text (str "--- Snippet ---")] = true.
Proof. reflexivity. Qed.

Lemma printable_snippet (snippet : value) :
  printable [Val snippet] = printable_value snippet.
Proof. unfold printable. cbn [forallb printable_piece]. apply andb_true_r. Qed.

Lemma printable_snippet_end :
  printable [Text (str "--- End Snippet ---")] = true.
Proof. reflexivity. Qed.

Lemma printable_progress :
  printable [Text (str "Found lyrics (no romaji detected yet)")] = true.
Proof. reflexivity. Qed.

Lemma printable_error (e : exn) :
  printable [Text (str "Error: "); Exc e] = true.
Proof. reflexivity. Qed.

Create Rewrite HintDb printing.
#[export] Hint Rewrite printable_header printable_checking printable_found
  printable_snippet_header printable_snippet printable_snippet_end
  printable_progress printable_error : printing.

(** A path that [quote] takes can be printed: it is a string with a
    UTF-8 encoding. *)
Lemma quote_printable (path : value) (quoted : pystr) :
  quote path = Ok quoted -> printable_value path = true.
Proof.
  unfold quote, printable_value, encodable.
  destruct path; try discriminate. now destruct (utf8 s).
Qed.

(** The first characters of a text that can be encoded can be. *)
Lemma utf8_firstn (n : nat) : forall s : pystr,
  encodable s = true -> encodable (firstn n s) = true.
Proof.
  unfold encodable.
  induction n as [|n IH]; intros [|c s]; trivial. cbn [firstn utf8].
  destruct (utf8_char c); [|discriminate]. specialize (IH s).
  destruct (utf8 s); [|discriminate].
  intros _. now destruct (utf8 (firstn n s)); [|discriminate (IH eq_refl)].
Qed.

Lemma field_or_empty_text (fields : list (pystr * value)) (key : pystr) :
  optional_string (lookup key fields) ->
  field_or_empty (JObj fields) key = Ok (JStr (text_of (lookup key fields))).
Proof.
  unfold field_or_empty, py_get.
  intros [-> | [-> | [s ->]]]; try reflexivity.
  now destruct s.
Qed.

Lemma field_or_empty_object (fields : list (pystr * value)) (key : pystr) :
  exists v, field_or_empty (JObj fields) key = Ok v.
Proof.
  unfold field_or_empty, py_get. destruct (lookup key fields); eauto.
Qed.

Section Facts.

Variable py : python.
Variable World : Type.
Variable http_get : pystr -> World -> result response * World.

Local Abbreviation check_track := (check_track py http_get).
Local Abbreviation for_tracks := (for_tracks py http_get).
Local Abbreviation scan_body := (scan_body py http_get).
Local Abbreviation search_track_with_lyrics :=
  (search_track_with_lyrics py http_get).
Local Abbreviation verdict := (verdict py).

(** The loop body, stage by stage. *)
Lemma check_track_unfold track (s : state World) :
  check_track track s =
    match py_getitem track (str "path") with
    | Raise e => (Raise e, s)
    | Ok path =>
        if printable_value path then
          match quote path with
          | Raise e =>
              (Raise e,
               State (world s) (log s ++ [Print (checking_line path)]))
          | Ok quoted =>
              let (answer, w) := http_get (lyrics_base ++ quoted) (world s) in
              (fst (verdict path answer),
               State w (log s ++ Print (checking_line path)
                              :: Get (lyrics_base ++ quoted)
                              :: map Print (snd (verdict path answer))))
          end
        else (Raise UnicodeEncodeError, s)
    end.
Proof.
  run. destruct (py_getitem track (str "path")) as [path|e]; run; trivial.
  destruct (printable_value path) eqn:Hpath; run; trivial.
  destruct (quote path) as [quoted|e]; run; trivial.
  destruct (http_get (lyrics_base ++ quoted) (world s)) as [[r|e] w];
    unfold Spec.verdict; run; tidy; trivial.
  destruct (status_code r =? 200)%Z; run; trivial.
  destruct (json r) as [data|e]; run; trivial.
  destruct (field_or_empty data (str "syncedLyrics")) as [synced|e];
    run; trivial.
  destruct (field_or_empty data (str "plainLyrics")) as [plain|e];
    run; trivial.
  destruct (py_in marker synced) as [[|]|e]; run; trivial.
  - destruct (py_slice py 200 synced) as [snippet|e]; run; tidy; trivial.
    destruct (printable_value snippet); run; tidy; trivial.
  - destruct (py_truthy synced); run; tidy; trivial.
Qed.

(** The loop body on a track with a path that [quote] takes. *)
Lemma check_track_answered track path quoted (s : state World) :
  py_getitem track (str "path") = Ok path ->
  quote path = Ok quoted ->
  check_track track s =
    let (answer, w) := http_get (lyrics_base ++ quoted) (world s) in
    (fst (verdict path answer),
     State w (log s ++ Print (checking_line path)
                    :: Get (lyrics_base ++ quoted)
                    :: map Print (snd (verdict path answer)))).
Proof.
  intros Hpath Hquote.
  now rewrite check_track_unfold, Hpath, (quote_printable _ Hquote), Hquote.
Qed.

(** The loop body on a track that is answered with status 200 and an
    object whose [syncedLyrics] is absent, null or a string: a match
    is reported whole when the snippet can be printed, and left
    unfinished by the [UnicodeEncodeError] of [print] when not. *)
Lemma check_track_200 track path quoted (s : state World) resp w fields :
  py_getitem track (str "path") = Ok path ->
  quote path = Ok quoted ->
  http_get (lyrics_base ++ quoted) (world s) = (Ok resp, w) ->
  status_code resp = 200%Z ->
  json resp = Ok (JObj fields) ->
  optional_string (lookup (str "syncedLyrics") fields) ->
  let synced := text_of (lookup (str "syncedLyrics") fields) in
  check_track track s =
    if contains marker synced then
      if encodable (firstn 200 synced) then
        (Ok Return,
         State w (log s ++ Print (checking_line path)
                        :: Get (lyrics_base ++ quoted)
                        :: match_report path (firstn 200 synced)))
      else
        (Raise UnicodeEncodeError,
         State w (log s ++ [Print (checking_line path);
                            Get (lyrics_base ++ quoted);
                            Print (found_line path);
                            Print [Text (str "--- Snippet ---")]]))
    else
      (Ok Next,
       State w (log s ++ Print (checking_line path)
                      :: Get (lyrics_base ++ quoted)
                      :: match synced with
                         | [] => []
                         | _ => [Print progress_line]
                         end)).
Proof.
  intros Hpath Hquote Hget Hstatus Hjson Hopt synced.
  rewrite check_track_answered with (1 := Hpath) (2 := Hquote).
  rewrite Hget. unfold Spec.verdict.
  rewrite Hstatus, Z.eqb_refl, Hjson.
  rewrite (field_or_empty_text _ _ Hopt).
  destruct (field_or_empty_object fields (str "plainLyrics")) as [plain ->].
  fold synced. unfold py_in.
  destruct (contains marker synced).
  - unfold py_slice, printable_value.
    now destruct (encodable (firstn 200 synced)).
  - unfold py_truthy. now destruct synced.
Qed.

Lemma check_track_not_200 track path quoted (s : state World) resp w :
  py_getitem track (str "path") = Ok path ->
  quote path = Ok quoted ->
  http_get (lyrics_base ++ quoted) (world s) = (Ok resp, w) ->
  status_code resp <> 200%Z ->
  check_track track s =
    (Ok Next,
     State w (log s ++ [Print (checking_line path);
                        Get (lyrics_base ++ quoted)])).
Proof.
  intros Hpath Hquote Hget Hstatus.
  rewrite check_track_answered with (1 := Hpath) (2 := Hquote).
  rewrite Hget. unfold Spec.verdict.
  apply Z.eqb_neq in Hstatus. now rewrite Hstatus.
Qed.

Lemma for_tracks_next track rest (s s1 : state World) :
  check_track track s = (Ok Next, s1) ->
  for_tracks (track :: rest) s = for_tracks rest s1.
Proof.
  intros H. cbn [Scanner.for_tracks]. unfold bind. now rewrite H.
Qed.

Lemma for_tracks_return track rest (s s1 : state World) :
  check_track track s = (Ok Return, s1) ->
  for_tracks (track :: rest) s = (Ok Return, s1).
Proof.
  intros H. cbn [Scanner.for_tracks]. unfold bind. now rewrite H.
Qed.

Lemma for_tracks_raise track rest (s s1 : state World) e :
  check_track track s = (Raise e, s1) ->
  for_tracks (track :: rest) s = (Raise e, s1).
Proof.
  intros H. cbn [Scanner.for_tracks]. unfold bind. now rewrite H.
Qed.

(** The loop over [before ++ rest] is the loop over [before], then,
    unless that one was left, the loop over [rest]. *)
Lemma for_tracks_app before rest (s s1 : state World) :
  for_tracks before s = (Ok Next, s1) ->
  for_tracks (before ++ rest) s = for_tracks rest s1.
Proof.
  revert s. induction before as [|track before IH]; intros s H.
  - cbn in H. now inversion H.
  - cbn [app Scanner.for_tracks] in *. unfold bind in *.
    destruct (check_track track s) as [[[|]|e] s2]; try discriminate.
    now apply IH.
Qed.

(** The [try] block up to the loop. *)
Lemma scan_body_listed (w w1 : World) lib tracks :
  http_get library_url w = (Ok lib, w1) ->
  json lib = Ok (JArr tracks) ->
  scan_body (State w []) =
    for_tracks (firstn 20 tracks) (State w1 (listed (length tracks))).
Proof.
  intros Hget Hjson. run. rewrite Hget. run. rewrite Hjson. run.
  reflexivity.
Qed.

Lemma search_of_body (s s' : state World) f :
  scan_body s = (Ok f, s') ->
  search_track_with_lyrics s = (Ok tt, s').
Proof.
  intros H. unfold Scanner.search_track_with_lyrics, try_except, bind.
  now rewrite H.
Qed.

Lemma search_of_raise (s s' : state World) e :
  scan_body s = (Raise e, s') ->
  search_track_with_lyrics s =
    (Ok tt, State (world s') (log s' ++ [Print (error_line e)])).
Proof.
  intros H. unfold Scanner.search_track_with_lyrics, try_except, bind.
  now rewrite H.
Qed.

(** *** What a run leaves in the log *)

Lemma requests_app (a b : list event) :
  requests (a ++ b) = requests a ++ requests b.
Proof. apply flat_map_app. Qed.

Lemma requests_prints (lines : list (list piece)) :
  requests (map Print lines) = [].
Proof. induction lines; trivial. Qed.

Lemma verdict_from_body path answer :
  Forall from_body (map Print (snd (verdict path answer))).
Proof.
  unfold Spec.verdict.
  repeat match goal with
         | |- context [match ?x with _ => _ end] => destruct x
         end; cbn; repeat constructor.
Qed.

Lemma verdict_next path answer :
  fst (verdict path answer) = Ok Next ->
  Forall quiet (map Print (snd (verdict path answer))).
Proof.
  unfold Spec.verdict.
  repeat match goal with
         | |- context [match ?x with _ => _ end] => destruct x
         end; cbn; try discriminate; intros _;
    try apply Forall_nil.
  apply Forall_cons; [now right | apply Forall_nil].
Qed.

(** One pass through the loop body: it appends to the log, prints no
    line of the handler, sends the one request of its track unless it
    fails before, and prints no report when it ends in [Next]. *)
Lemma check_track_log track (s s' : state World) r :
  check_track track s = (r, s') ->
  exists evs,
    log s' = log s ++ evs /\
    Forall from_body evs /\
    requests evs = url_list (track_url track) /\
    (track_url track = None -> exists e, r = Raise e) /\
    (r = Ok Next -> Forall quiet evs).
Proof.
  rewrite check_track_unfold. unfold track_url.
  destruct (py_getitem track (str "path")) as [path|e].
  - destruct (quote path) as [quoted|e] eqn:Hquote.
    + rewrite (quote_printable _ Hquote).
      destruct (http_get (lyrics_base ++ quoted) (world s)) as [answer w].
      intros H. inversion H; subst; clear H. cbn [log].
      eexists. split; [reflexivity|]. split; [|split; [|split]].
      * apply Forall_cons; [reflexivity|].
        apply Forall_cons; [exact I|]. apply verdict_from_body.
      * cbn. now rewrite requests_prints.
      * discriminate.
      * intros H. apply Forall_cons; [left; now exists path|].
        apply Forall_cons; [exact I|]. now apply verdict_next.
    + destruct (printable_value path).
      * intros H. inversion H; subst; clear H. cbn [log].
        eexists. split; [reflexivity|]. split; [|split; [|split]].
        -- apply Forall_cons; [reflexivity | apply Forall_nil].
        -- reflexivity.
        -- eauto.
        -- discriminate.
      * intros H. inversion H; subst; clear H.
        exists []. rewrite app_nil_r. split; [reflexivity|].
        split; [|split; [|split]]; eauto; try discriminate.
  - intros H. inversion H; subst; clear H.
    exists []. rewrite app_nil_r. split; [reflexivity|].
    split; [|split; [|split]]; eauto; try discriminate.
Qed.

(** The loop: its requests are those of the first [n] tracks, one
    each and in order, and of all tracks when it runs to its end. *)
Lemma for_tracks_log tracks : forall (s s' : state World) r,
  for_tracks tracks s = (r, s') ->
  exists evs n,
    log s' = log s ++ evs /\
    Forall from_body evs /\
    n <= length tracks /\
    map Some (requests evs) = map track_url (firstn n tracks) /\
    (r = Ok Next -> n = length tracks /\ Forall quiet evs).
Proof.
  induction tracks as [|track rest IH]; intros s s' r H.
  - cbn in H. inversion H; subst. exists [], 0.
    rewrite app_nil_r. repeat split; auto.
  - destruct (check_track track s) as [[[|]|e] s1] eqn:E;
      pose proof (check_track_log _ _ E) as (evs1 & L1 & B1 & R1 & U1 & Q1).
    + rewrite for_tracks_next with (s1 := s1) in H by exact E.
      pose proof (IH _ _ _ H) as (evs2 & n & L2 & B2 & N2 & R2 & Q2).
      exists (evs1 ++ evs2), (S n). repeat split.
      * now rewrite L2, L1, app_assoc.
      * apply Forall_app; auto.
      * cbn. lia.
      * rewrite requests_app, R1, map_app, R2. cbn [firstn map].
        destruct (track_url track) as [u|]; [reflexivity|].
        destruct (U1 eq_refl) as [e He]. discriminate.
      * cbn. f_equal. now apply Q2.
      * apply Forall_app. split; [auto | now apply Q2].
    + rewrite for_tracks_return with (s1 := s1) in H by exact E. inversion H; subst.
      exists evs1, 1. repeat split; auto; try discriminate.
      * cbn. lia.
      * rewrite R1. cbn.
        destruct (track_url track) as [u|]; [reflexivity|].
        destruct (U1 eq_refl) as [e He]. discriminate.
    + rewrite for_tracks_raise with (s1 := s1) (e := e) in H by exact E. inversion H; subst.
      destruct (track_url track) as [u|] eqn:Eu.
      * exists evs1, 1. repeat split; auto; try discriminate.
        -- cbn. lia.
        -- rewrite R1. cbn. now rewrite Eu.
      * exists evs1, 0. repeat split; auto; try discriminate.
        -- cbn. lia.
        -- now rewrite R1.
Qed.

(** The [try] block never prints a line of the handler. *)
Lemma scan_body_from_body (w : World) r (s' : state World) :
  scan_body (State w []) = (r, s') -> Forall from_body (log s').
Proof.
  run. destruct (http_get library_url w) as [[lib|e] w1]; run.
  2: { intros H; inversion H; subst. repeat constructor. }
  destruct (json lib) as [tracks|e]; run.
  2: { intros H; inversion H; subst. repeat constructor. }
  destruct (py_len tracks) as [n|e]; run.
  2: { intros H; inversion H; subst. repeat constructor. }
  destruct (py_slice py 20 tracks) as [first20|e]; run.
  2: { intros H; inversion H; subst. repeat constructor. }
  destruct (py_iter first20) as [items|e]; run.
  2: { intros H; inversion H; subst. repeat constructor. }
  intros H. pose proof (for_tracks_log _ _ H) as (evs & k & L & B & _).
  rewrite L. cbn [log]. apply Forall_app. split; [|exact B].
  repeat constructor.
Qed.

Lemma no_error_line_in_body (evs : list event) :
  Forall from_body evs -> filter is_error_line (printed evs) = [].
Proof.
  induction 1 as [|ev evs Hev _ IH]; trivial.
  destruct ev as [line|url]; cbn in *; [|exact IH].
  fold (printed evs). now rewrite Hev.
Qed.

Lemma for_tracks_single track (s : state World) :
  for_tracks [track] s =
    (fst (check_track track s), snd (check_track track s)).
Proof.
  cbn [Scanner.for_tracks]. unfold bind, ret.
  now destruct (check_track track s) as [[[|]|e] s1].
Qed.

End Facts.

(** *** Two runs against services that differ in [plainLyrics] *)

Lemma synced_is_not_plain : str "syncedLyrics" <> str "plainLyrics".
Proof. discriminate. Qed.

Lemma field_alike (a b : value) :
  same_but_plain a b ->
  field_or_empty a (str "syncedLyrics") = field_or_empty b (str "syncedLyrics").
Proof.
  intros [-> | (fa & fb & -> & -> & H)]; [reflexivity|].
  unfold field_or_empty, py_get. now rewrite (H _ synced_is_not_plain).
Qed.

Lemma plain_alike (a b : value) :
  same_but_plain a b ->
  (exists e, field_or_empty a (str "plainLyrics") = Raise e /\
             field_or_empty b (str "plainLyrics") = Raise e) \/
  (exists x y, field_or_empty a (str "plainLyrics") = Ok x /\
               field_or_empty b (str "plainLyrics") = Ok y).
Proof.
  intros [-> | (fa & fb & -> & -> & H)].
  - destruct (field_or_empty b (str "plainLyrics")) as [x|e]; eauto.
  - right.
    destruct (field_or_empty_object fa (str "plainLyrics")) as [x ->].
    destruct (field_or_empty_object fb (str "plainLyrics")) as [y ->].
    eauto.
Qed.

(** The loop body decides the same on two answers that are alike. *)
Lemma verdict_alike py path (a b : result response) :
  responses_alike a b -> verdict py path a = verdict py path b.
Proof.
  unfold responses_alike, verdict.
  destruct a as [ra|ea], b as [rb|eb]; try contradiction;
    [|now intros ->].
  intros [-> H]. destruct (status_code rb =? 200)%Z; [|reflexivity].
  destruct (json ra) as [da|ea], (json rb) as [db|eb]; try contradiction;
    [|now subst].
  rewrite (@field_alike da db H).
  destruct (field_or_empty db (str "syncedLyrics")) as [synced|e];
    [|reflexivity].
  destruct (@plain_alike da db H) as [(e & -> & ->) | (x & y & -> & ->)];
    reflexivity.
Qed.

Section TwoServices.

Variable py : python.
Variables W1 W2 : Type.
Variable get1 : pystr -> W1 -> result response * W1.
Variable get2 : pystr -> W2 -> result response * W2.

(** The two services stay related, and answer alike. *)
Variable R : W1 -> W2 -> Prop.
Hypothesis answers_alike : forall url w1 w2,
  R w1 w2 ->
  responses_alike (fst (get1 url w1)) (fst (get2 url w2)) /\
  R (snd (get1 url w1)) (snd (get2 url w2)).
Hypothesis same_library : forall w1 w2,
  R w1 w2 -> fst (get1 library_url w1) = fst (get2 library_url w2).

Local Abbreviation alike := (alike R).
Local Abbreviation same_run := (same_run R).

Lemma check_track_alike track (s1 : state W1) (s2 : state W2) :
  alike s1 s2 ->
  same_run (check_track py get1 track s1) (check_track py get2 track s2).
Proof.
  intros [L H]. rewrite !check_track_unfold.
  destruct (py_getitem track (str "path")) as [path|e];
    [|now repeat split].
  destruct (printable_value path); [|now repeat split].
  destruct (quote path) as [quoted|e].
  - destruct (answers_alike (lyrics_base ++ quoted) H) as [Ha Hw].
    destruct (get1 (lyrics_base ++ quoted) (world s1)) as [a1 w1].
    destruct (get2 (lyrics_base ++ quoted) (world s2)) as [a2 w2].
    cbn [fst snd] in *. rewrite (@verdict_alike py path a1 a2 Ha), L.
    now repeat split.
  - repeat split; cbn [fst snd log world]; congruence.
Qed.

Lemma for_tracks_alike tracks : forall (s1 : state W1) (s2 : state W2),
  alike s1 s2 ->
  same_run (for_tracks py get1 tracks s1) (for_tracks py get2 tracks s2).
Proof.
  induction tracks as [|track rest IH]; intros s1 s2 H.
  - now split.
  - cbn [for_tracks]. unfold bind.
    destruct (check_track_alike track H) as [Hr Hs].
    destruct (check_track py get1 track s1) as [r1 t1].
    destruct (check_track py get2 track s2) as [r2 t2].
    cbn [fst snd] in *. subst r2.
    destruct r1 as [[|]|e]; [now apply IH | now split | now split].
Qed.

Lemma scan_body_alike (w1 : W1) (w2 : W2) :
  R w1 w2 ->
  same_run (scan_body py get1 (State w1 [])) (scan_body py get2 (State w2 [])).
Proof.
  intros H. run.
  pose proof (same_library H) as Hlib.
  destruct (answers_alike library_url H) as [_ Hw].
  destruct (get1 library_url w1) as [a1 v1].
  destruct (get2 library_url w2) as [a2 v2].
  cbn [fst snd] in *. subst a2.
  destruct a1 as [lib|e]; [|now repeat split].
  run. destruct (json lib) as [tracks|e]; [|now repeat split].
  run. destruct (py_len tracks) as [n|e]; [|now repeat split].
  run. destruct (py_slice py 20 tracks) as [first20|e]; [|now repeat split].
  run. destruct (py_iter first20) as [items|e]; [|now repeat split].
  run. apply for_tracks_alike. now split.
Qed.

End TwoServices.

End ScannerFacts.

(* ================================================================= *)
(** ** More on [quote]: reading a quoted path back *)

Module QuoteFacts.
Import Py Urllib Spec PyFacts UrllibFacts.
Local Open Scope N_scope.

(** Linear arithmetic with division and remainder by constants. *)
Ltac divlia := zify; Z.to_euclidean_division_equations; lia.

Ltac decide_ltb :=
  repeat match goal with
  | |- context [?a <? ?b] =>
      let E := fresh "E" in
      destruct (a <? b) eqn:E;
      [apply N.ltb_lt in E | apply N.ltb_ge in E]; try (exfalso; divlia)
  end.

Lemma utf8_decode_char_encode (c : N) (rest : list N) :
  match utf8_char c with
  | Some bs => utf8_decode_char (bs ++ rest) = Some (c, rest)
  | None => True
  end.
Proof.
  unfold utf8_char.
  destruct (c <? 128) eqn:H1; [|destruct (c <? 2048) eqn:H2;
    [|destruct (c <? 65536) eqn:H3;
      [destruct ((55296 <=? c) && (c <=? 57343)) eqn:H4
      |destruct (c <? 1114112) eqn:H4]]];
    trivial; bool_to_prop;
    cbn [app]; unfold utf8_decode_char; decide_ltb;
    do 2 f_equal; divlia.
Qed.

Lemma utf8_char_length (c : N) (bs : list N) :
  utf8_char c = Some bs -> (1 <= length bs <= 4)%nat.
Proof.
  unfold utf8_char.
  repeat match goal with
         | |- context [if ?x then _ else _] => destruct x
         end; intros H; try discriminate H;
    apply (f_equal (option_map (@length N))) in H; cbn in H;
    injection H as <-; lia.
Qed.

Lemma utf8_decode_encode (path : pystr) : forall bs fuel,
  utf8 path = Some bs ->
  (length bs <= fuel)%nat ->
  utf8_decode_fuel fuel bs = Some path.
Proof.
  induction path as [|c path IH]; intros bs fuel H Hfuel; cbn [utf8] in H.
  - injection H as <-. now destruct fuel.
  - destruct (utf8_char c) as [x|] eqn:Hc; [|discriminate].
    destruct (utf8 path) as [r|]; [|discriminate].
    injection H as <-.
    pose proof (utf8_char_length _ Hc) as Hlen.
    pose proof (utf8_decode_char_encode c r) as Hdec. rewrite Hc in Hdec.
    rewrite length_app in Hfuel.
    destruct x as [|b x]; [cbn in Hlen; lia|].
    destruct fuel as [|fuel]; [cbn in Hfuel; lia|].
    cbn [utf8_decode_fuel app]. cbn [app] in Hdec. rewrite Hdec.
    rewrite (IH r fuel eq_refl) by (cbn in Hfuel, Hlen; lia).
    reflexivity.
Qed.

Lemma unquote_of_quote (path q : pystr) :
  quote (JStr path) = Ok q -> unquote q = Some path.
Proof.
  intros H. apply unquote_quote in H. unfold unquote.
  now apply utf8_decode_encode.
Qed.

Lemma quoted_char_ascii (c : N) : quoted_char c -> c < 128.
Proof.
  unfold quoted_char, always_safe, percent.
  intros [H | ->]; [|lia]. bool_to_prop; lia.
Qed.

Lemma quote_byte_length (b : N) : (1 <= length (quote_byte b) <= 3)%nat.
Proof. unfold quote_byte. destruct (always_safe b); cbn; lia. Qed.

Lemma quote_bytes_length (bs : list N) :
  (length bs <= length (quote_bytes bs) <= 3 * length bs)%nat.
Proof.
  unfold quote_bytes. induction bs as [|b bs IH]; cbn [flat_map length].
  - lia.
  - rewrite length_app. pose proof (quote_byte_length b). lia.
Qed.

Lemma utf8_length (path : pystr) : forall bs,
  utf8 path = Some bs -> (length path <= length bs <= 4 * length path)%nat.
Proof.
  induction path as [|c path IH]; intros bs H; cbn [utf8] in H.
  - injection H as <-. cbn. lia.
  - destruct (utf8_char c) as [x|] eqn:Hc; [|discriminate].
    destruct (utf8 path) as [r|]; [|discriminate].
    injection H as <-. rewrite length_app. cbn [length].
    pose proof (utf8_char_length _ Hc). pose proof (IH r eq_refl). lia.
Qed.




End QuoteFacts.

(* ================================================================= *)
(** ** More on the runs of the script *)

Module RunFacts.
Import Py Urllib Scanner Spec PyFacts UrllibFacts ScannerFacts.

Lemma track_url_request (track : value) (url : pystr) :
  track_url track = Some url -> lyrics_request url.
Proof.
  unfold track_url, quote.
  destruct (py_getitem track (str "path")) as [[| | | |p| |]|]; try discriminate.
  destruct (utf8 p) as [bs|] eqn:E; [|discriminate].
  intros H. injection H as <-. exists (quote_bytes bs). split; [reflexivity|].
  apply quote_bytes_chars. eapply utf8_bytes; eauto.
Qed.

Lemma lyrics_url_not_library (quoted : pystr) :
  lyrics_base ++ quoted <> library_url.
Proof.
  intros H. apply (f_equal (firstn 28)) in H. vm_compute in H. discriminate H.
Qed.

Lemma map_some_inv {A B} (f : A -> option B) (P : B -> Prop) :
  (forall a b, f a = Some b -> P b) ->
  forall (l : list A) (bs : list B), map Some bs = map f l -> Forall P bs.
Proof.
  intros Hf l. induction l as [|a l IH]; intros [|b bs] H; try discriminate.
  - constructor.
  - cbn in H. injection H as Ha Hl. constructor; eauto.
Qed.

Lemma sliced_items py (n : nat) (v head : value) (items : list value) :
  py_slice py n v = Ok head -> py_iter head = Ok items -> length items <= n.
Proof.
  destruct v; try (destruct py; discriminate); intros H1 H2;
    inversion H1; subst; inversion H2; subst;
    rewrite ?length_map; apply firstn_le_length.
Qed.

Lemma quiet_not_found (evs : list event) :
  Forall quiet evs -> filter is_found_line (printed evs) = [].
Proof.
  induction 1 as [|ev evs Hev _ IH]; trivial.
  destruct ev as [line|url]; cbn in *; [|exact IH].
  fold (printed evs). rewrite IH.
  now destruct Hev as [[path ->] | ->].
Qed.

Lemma printed_app (a b : list event) : printed (a ++ b) = printed a ++ printed b.
Proof. apply flat_map_app. Qed.

Lemma printed_prints (lines : list (list piece)) :
  printed (map Print lines) = lines.
Proof. induction lines as [|l lines IH]; cbn; [|fold (printed (map Print lines))]; congruence. Qed.

(** The lines of one verdict: at most one found line; none when the
    body goes on; the whole report, and nothing else, when it returns. *)
Lemma verdict_report py path answer :
  length (filter is_found_line (snd (verdict py path answer))) <= 1 /\
  (fst (verdict py path answer) = Ok Return ->
   exists snippet,
     map Print (snd (verdict py path answer)) = report_of path snippet).
Proof.
  unfold Spec.verdict.
  repeat match goal with
         | |- context [match ?x with _ => _ end] => destruct x
         end; cbn [fst snd]; (split; [vm_compute; lia|]);
    try discriminate; intros _; eexists; reflexivity.
Qed.

Section Runs.

Variable py : python.
Variable World : Type.
Variable http_get : pystr -> World -> result response * World.

Local Abbreviation check_track := (check_track py http_get).
Local Abbreviation for_tracks := (for_tracks py http_get).
Local Abbreviation scan_body := (scan_body py http_get).
Local Abbreviation main := (main py http_get).

Lemma main_of_body (w : World) r (s' : state World) :
  scan_body (State w []) = (r, s') ->
  main w = (0%Z, match r with
                 | Ok _ => log s'
                 | Raise e => log s' ++ [Print (error_line e)]
                 end).
Proof.
  intros H. unfold Scanner.main, search_track_with_lyrics, try_except, bind.
  rewrite H. now destruct r.
Qed.

(** The found lines of a loop. *)
Lemma for_tracks_report tracks : forall (s s' : state World) r,
  for_tracks tracks s = (r, s') ->
  exists evs,
    log s' = log s ++ evs /\
    length (filter is_found_line (printed evs)) <= 1 /\
    (r = Ok Return ->
     exists before path snippet,
       evs = before ++ report_of path snippet /\ Forall quiet before).
Proof.
  induction tracks as [|track rest IH]; intros s s' r H.
  - cbn in H. inversion H; subst. exists []. rewrite app_nil_r.
    repeat split; [cbn; lia | discriminate].
  - cbn [Scanner.for_tracks] in H. unfold bind in H.
    destruct (check_track track s) as [[[|]|e] s1] eqn:E.
    + apply check_track_log in E. destruct E as (evs1 & L1 & _ & _ & _ & Q1).
      specialize (Q1 eq_refl).
      apply IH in H. destruct H as (evs2 & L2 & C2 & R2).
      exists (evs1 ++ evs2). split; [now rewrite L2, L1, app_assoc|]. split.
      * now rewrite printed_app, filter_app, (quiet_not_found Q1).
      * intros Hr. destruct (R2 Hr) as (before & path & snippet & -> & Q2).
        exists (evs1 ++ before), path, snippet.
        split; [now rewrite app_assoc | now apply Forall_app].
    + cbn in H. inversion H; subst; clear H.
      rewrite check_track_unfold in E.
      destruct (py_getitem track (str "path")) as [path|]; [|discriminate].
      destruct (printable_value path); [|discriminate].
      destruct (quote path) as [quoted|]; [|discriminate].
      destruct (http_get (lyrics_base ++ quoted) (world s)) as [answer w].
      inversion E as [[Hr Hs]]. cbn [log].
      destruct (verdict_report py path answer) as [Hc Hrep].
      destruct (Hrep Hr) as [snippet Hlines].
      eexists. split; [reflexivity|]. split.
      * cbn. fold (printed (map Print (snd (verdict py path answer)))).
        now rewrite printed_prints.
      * intros _.
        exists [Print (checking_line path); Get (lyrics_base ++ quoted)],
               path, snippet.
        split; [now rewrite Hlines|].
        apply Forall_cons; [left; now exists path|].
        apply Forall_cons; [exact I | apply Forall_nil].
    + inversion H; subst; clear H.
      rewrite check_track_unfold in E.
      destruct (py_getitem track (str "path")) as [path|].
      * destruct (printable_value path).
        -- destruct (quote path) as [quoted|].
           ++ destruct (http_get (lyrics_base ++ quoted) (world s))
                as [answer w].
              inversion E as [[Hr Hs]]. cbn [log].
              destruct (verdict_report py path answer) as [Hc _].
              eexists. split; [reflexivity|]. split; [|intros; congruence].
              cbn. fold (printed (map Print (snd (verdict py path answer)))).
              now rewrite printed_prints.
           ++ inversion E; subst. cbn [log]. eexists.
              split; [reflexivity|]. split; [cbn; lia | discriminate].
        -- inversion E; subst. exists []. rewrite app_nil_r.
           split; [reflexivity|]. split; [cbn; lia | discriminate].
      * inversion E; subst. exists []. rewrite app_nil_r.
        split; [reflexivity|]. split; [cbn; lia | discriminate].
Qed.

(** A service that answers every track with no match lets the loop
    run to its end. *)
Lemma for_tracks_unmatched tracks : forall (s : state World),
  unmatched http_get tracks (world s) ->
  exists s', for_tracks tracks s = (Ok Next, s').
Proof.
  induction tracks as [|track rest IH]; intros s H.
  - eexists. reflexivity.
  - cbn [unmatched] in H.
    destruct H as (path & quoted & resp & w' & Hp & Hq & Hg & Hn & Hrest).
    assert (Hstep : exists l, check_track track s = (Ok Next, State w' l)).
    { destruct (Z.eq_dec (status_code resp) 200) as [Hs | Hs].
      - destruct Hn as [Hn | (fields & Hj & Ho & Hc)]; [contradiction|].
        rewrite check_track_200 with (1 := Hp) (2 := Hq) (3 := Hg)
          (4 := Hs) (5 := Hj) by exact Ho.
        rewrite Hc. eauto.
      - rewrite check_track_not_200 with (1 := Hp) (2 := Hq) (3 := Hg)
          by exact Hs.
        eauto. }
    destruct Hstep as [l Hstep].
    rewrite for_tracks_next with (s1 := State w' l) by exact Hstep.
    now apply IH.
Qed.

End Runs.

End RunFacts.

(* ================================================================= *)
(** ** The properties of the specification *)

Module Claims.
Import Py Urllib Scanner Spec PyFacts UrllibFacts ScannerFacts QuoteFacts
  RunFacts.

Section OneService.

Variable py : python.
Variable World : Type.
Variable http_get : pystr -> World -> result response * World.

Local Abbreviation check_track := (check_track py http_get).
Local Abbreviation for_tracks := (for_tracks py http_get).
Local Abbreviation scan_body := (scan_body py http_get).
Local Abbreviation search_track_with_lyrics :=
  (search_track_with_lyrics py http_get).
Local Abbreviation main := (main py http_get).


(** C2.  For a library answered as a list of tracks, the lyrics
    requests of the scan are those of the first [n] tracks of the
    list for some [n <= 20], one per track and in the order of the
    list; when the loop runs to its end they are those of all of the
    first 20 tracks; and with more than 20 tracks there are exactly
    20 of them as soon as the loop has passed the first 19 tracks and
    the 20th has a path it can quote.  The 21st track is never
    requested. *)
Theorem lyrics_requests_follow_the_listing
    (w w1 : World) lib tracks r (s' : state World) :
  http_get library_url w = (Ok lib, w1) ->
  json lib = Ok (JArr tracks) ->
  scan_body (State w []) = (r, s') ->
  exists urls n,
    requests (log s') = library_url :: urls /\
    n <= 20 /\ n <= length tracks /\ length urls = n /\
    map Some urls = map track_url (firstn n tracks) /\
    (r = Ok Next -> n = Nat.min 20 (length tracks)) /\
    (20 <= length tracks ->
     (r = Ok Next \/
      exists s19,
        for_tracks (firstn 19 tracks)
                   (State w1 (listed (length tracks))) = (Ok Next, s19) /\
        track_url (nth 19 tracks JNull) <> None) ->
     n = 20).
Proof.
  intros Hlib Hjson Hscan.
  rewrite scan_body_listed with (1 := Hlib) (2 := Hjson) in Hscan.
  pose proof Hscan as H. apply for_tracks_log in H.
  destruct H as (evs & n & L & _ & N & R & Q).
  rewrite length_firstn in N. rewrite firstn_firstn in R.
  replace (Nat.min n 20) with n in R by lia.
  exists (requests evs), n. cbn [log] in L.
  split; [now rewrite L, requests_app|].
  split; [lia|]. split; [lia|]. split; [|split; [exact R|split]].
  - apply (f_equal (@length _)) in R.
    rewrite !length_map, length_firstn in R. lia.
  - intros ->. destruct (Q eq_refl) as [-> _]. now rewrite length_firstn.
  - intros Hlong [-> | (s19 & H19 & Hurl)].
    + destruct (Q eq_refl) as [-> _]. rewrite length_firstn. lia.
    + rewrite (firstn_succ_nth JNull) in Hscan by lia.
      rewrite for_tracks_app with (1 := H19), for_tracks_single in Hscan.
      destruct (check_track (nth 19 tracks JNull) s19) as [r20 s20] eqn:E.
      cbn [fst snd] in Hscan. inversion Hscan; subst; clear Hscan.
      apply check_track_log in E.
      destruct E as (evs20 & L20 & _ & R20 & _).
      apply for_tracks_log in H19.
      destruct H19 as (evs19 & n19 & L19 & _ & _ & R19 & Q19).
      destruct (Q19 eq_refl) as [-> _]. cbn [log] in L19.
      rewrite L19, <- app_assoc in L20. rewrite L20 in L.
      apply app_inv_head in L. subst evs.
      apply (f_equal (@length _)) in R, R19.
      rewrite !length_map, !length_firstn in *.
      rewrite requests_app, length_app, R20 in R.
      destruct (track_url (nth 19 tracks JNull)); [|congruence].
      cbn [url_list length] in R. lia.
Qed.

(** C3.  When the service answers every scanned track with no match
    (each of the first 20 tracks has a path that can be quoted and is
    answered with a status other than 200, or with an object whose
    [syncedLyrics] is absent, null or a string without [" / "]), the
    loop runs to its end and the scan ends in silence: the function
    returns, the script ends with status 0, every track has got its
    request, and after the [Checking n tracks...] line only [Checking]
    and progress lines are printed, no report of any kind and no error
    line.  With an empty library nothing follows the
    [Checking 0 tracks...] line: no lyrics request is sent. *)
Theorem no_match_is_an_ordinary_outcome (w w1 : World) lib tracks :
  http_get library_url w = (Ok lib, w1) ->
  json lib = Ok (JArr tracks) ->
  unmatched http_get (firstn 20 tracks) w1 ->
  exists evs,
    main w = (0%Z, listed (length tracks) ++ evs) /\
    (exists w',
        scan_body (State w []) =
          (Ok Next, State w' (listed (length tracks) ++ evs))) /\
    Forall quiet evs /\
    map Some (requests evs) = map track_url (firstn 20 tracks) /\
    filter is_error_line (printed (listed (length tracks) ++ evs)) = [] /\
    filter is_found_line (printed (listed (length tracks) ++ evs)) = [] /\
    (tracks = [] -> evs = []).
Proof.
  intros Hlib Hjson Hun.
  destruct (for_tracks_unmatched py http_get (firstn 20 tracks)
              (State w1 (listed (length tracks))) Hun) as [s' Hloop].
  assert (Hscan : scan_body (State w []) = (Ok Next, s'))
    by now rewrite scan_body_listed with (1 := Hlib) (2 := Hjson).
  pose proof Hloop as H. apply for_tracks_log in H.
  destruct H as (evs & n & L & B & _ & R & Q).
  destruct (Q eq_refl) as [-> Hquiet]. rewrite firstn_all in R.
  cbn [log] in L. destruct s' as [w' l']. cbn [log] in L. subst l'.
  exists evs. split; [now rewrite main_of_body with (1 := Hscan)|].
  split; [eauto|]. split; [exact Hquiet|]. split; [exact R|].
  split; [|split].
  - apply no_error_line_in_body.
    eapply scan_body_from_body with (s' := State w' _); eauto.
  - rewrite printed_app, filter_app, (quiet_not_found Hquiet). reflexivity.
  - intros ->. cbn [firstn Scanner.for_tracks] in Hloop. unfold ret in Hloop.
    injection Hloop as _ Hl. now symmetry.
Qed.

(** C4.  A track whose lyrics request is answered with a status other
    than 200 is passed over: the loop body ends in [Next] whatever the
    body of the response is (it is not looked at: [.json()] may well
    raise on it), nothing is printed for the response, and the loop
    goes on with the next track. *)
Theorem non_200_is_skipped
    track rest path quoted (s : state World) resp (w : World) :
  py_getitem track (str "path") = Ok path ->
  quote path = Ok quoted ->
  http_get (lyrics_base ++ quoted) (world s) = (Ok resp, w) ->
  status_code resp <> 200%Z ->
  let s1 := State w (log s ++ [Print (checking_line path);
                               Get (lyrics_base ++ quoted)]) in
  check_track track s = (Ok Next, s1) /\
  for_tracks (track :: rest) s = for_tracks rest s1.
Proof.
  intros Hpath Hquote Hget Hstatus s1.
  assert (H : check_track track s = (Ok Next, s1))
    by (eapply check_track_not_200; eauto).
  split; [exact H | now apply for_tracks_next].
Qed.

(** C5.  Whatever the service does, the function returns and the
    script ends with status 0.  An exception raised in the [try]
    block is handled by the one handler: the log of the block is
    followed by the single line [Error: e], the only line of this
    kind in the output; when no exception is raised there is none. *)
Theorem every_exception_is_caught_once (w : World) :
  fst (main w) = 0%Z /\
  (exists s', search_track_with_lyrics (State w []) = (Ok tt, s')) /\
  (forall e s', scan_body (State w []) = (Raise e, s') ->
     snd (main w) = log s' ++ [Print (error_line e)] /\
     filter is_error_line (printed (snd (main w))) = [error_line e]) /\
  (forall f s', scan_body (State w []) = (Ok f, s') ->
     snd (main w) = log s' /\
     filter is_error_line (printed (snd (main w))) = []).
Proof.
  unfold Scanner.main.
  destruct (scan_body (State w [])) as [[f|e] s1] eqn:E.
  - rewrite search_of_body with (1 := E). cbn [fst snd].
    split; [reflexivity|]. split; [eauto|]. split; [discriminate|].
    intros f' s' H. inversion H; subst. split; [reflexivity|].
    apply no_error_line_in_body. eapply scan_body_from_body; eauto.
  - rewrite search_of_raise with (1 := E). cbn [fst snd log].
    split; [reflexivity|]. split; [eauto|]. split; [|discriminate].
    intros e' s' H. inversion H; subst. split; [reflexivity|].
    unfold printed. rewrite flat_map_app, filter_app.
    fold (printed (log s')).
    rewrite no_error_line_in_body by (eapply scan_body_from_body; eauto).
    reflexivity.
Qed.



(** C8.  A track answered with status 200 and a [syncedLyrics] string
    that is not empty and does not contain [" / "] gets the progress
    line [Found lyrics (no romaji detected yet)], and the loop goes
    on with the next track. *)
Theorem lyrics_without_marker_go_on
    track rest path quoted (s : state World) resp (w : World) fields lyrics :
  py_getitem track (str "path") = Ok path ->
  quote path = Ok quoted ->
  http_get (lyrics_base ++ quoted) (world s) = (Ok resp, w) ->
  status_code resp = 200%Z ->
  json resp = Ok (JObj fields) ->
  lookup (str "syncedLyrics") fields = Some (JStr lyrics) ->
  lyrics <> [] ->
  ~ substring marker lyrics ->
  let s1 := State w (log s ++ [Print (checking_line path);
                               Get (lyrics_base ++ quoted);
                               Print progress_line]) in
  check_track track s = (Ok Next, s1) /\
  for_tracks (track :: rest) s = for_tracks rest s1.
Proof.
  intros Hpath Hquote Hget Hstatus Hbody Hsynced Hne Hsub s1.
  assert (H : check_track track s = (Ok Next, s1)).
  { rewrite check_track_200 with (1 := Hpath) (2 := Hquote) (3 := Hget)
      (4 := Hstatus) (5 := Hbody)
      by (right; right; rewrite Hsynced; eauto).
    rewrite Hsynced. cbn [text_of].
    destruct (contains marker lyrics) eqn:E.
    - now apply contains_substring in E.
    - now destruct lyrics. }
  split; [exact H | now apply for_tracks_next].
Qed.

(** C9.  A track answered with status 200 and an object whose
    [syncedLyrics] is absent, null or the empty string gets neither a
    match report nor a progress line: after the [Checking] line and
    the request nothing is printed, and the loop goes on with the
    next track. *)
Theorem empty_lyrics_are_passed_silently
    track rest path quoted (s : state World) resp (w : World) fields :
  py_getitem track (str "path") = Ok path ->
  quote path = Ok quoted ->
  http_get (lyrics_base ++ quoted) (world s) = (Ok resp, w) ->
  status_code resp = 200%Z ->
  json resp = Ok (JObj fields) ->
  lookup (str "syncedLyrics") fields = None \/
  lookup (str "syncedLyrics") fields = Some JNull \/
  lookup (str "syncedLyrics") fields = Some (JStr []) ->
  let s1 := State w (log s ++ [Print (checking_line path);
                               Get (lyrics_base ++ quoted)]) in
  check_track track s = (Ok Next, s1) /\
  for_tracks (track :: rest) s = for_tracks rest s1.
Proof.
  intros Hpath Hquote Hget Hstatus Hbody Hsynced s1.
  assert (H : check_track track s = (Ok Next, s1)).
  { rewrite check_track_200 with (1 := Hpath) (2 := Hquote) (3 := Hget)
      (4 := Hstatus) (5 := Hbody)
      by (destruct Hsynced as [H | [H | H]]; rewrite H;
          [left | right; left | right; right; eexists]; reflexivity).
    destruct Hsynced as [H | [H | H]]; rewrite H; reflexivity. }
  split; [exact H | now apply for_tracks_next].
Qed.

End OneService.

Section TwoServices.

Variable py : python.
Variables W1 W2 : Type.
Variable get1 : pystr -> W1 -> result response * W1.
Variable get2 : pystr -> W2 -> result response * W2.
Variable R : W1 -> W2 -> Prop.

(** C10.  Two services that give the same library and, request by
    request, answers that differ at most in the [plainLyrics] of
    their bodies lead the script through the same run: the [try]
    block ends the same way (the same flow or the same exception),
    with the same log, so the same lines and snippet printed and the
    same requests sent; the script prints the same and ends with the
    same status. *)
Theorem plain_lyrics_are_never_inspected :
  (forall url w1 w2,
      R w1 w2 ->
      responses_alike (fst (get1 url w1)) (fst (get2 url w2)) /\
      R (snd (get1 url w1)) (snd (get2 url w2))) ->
  (forall w1 w2,
      R w1 w2 -> fst (get1 library_url w1) = fst (get2 library_url w2)) ->
  forall w1 w2,
    R w1 w2 ->
    fst (scan_body py get1 (State w1 [])) = fst (scan_body py get2 (State w2 [])) /\
    log (snd (scan_body py get1 (State w1 []))) =
      log (snd (scan_body py get2 (State w2 []))) /\
    main py get1 w1 = main py get2 w2.
Proof.
  intros Halike Hlib w1 w2 H.
  destruct (@scan_body_alike py W1 W2 get1 get2 R Halike Hlib w1 w2 H)
    as (Hr & Hl & _).
  split; [exact Hr|]. split; [exact Hl|].
  destruct (scan_body py get1 (State w1 [])) as [r1 s1] eqn:E1.
  destruct (scan_body py get2 (State w2 [])) as [r2 s2] eqn:E2.
  cbn [fst snd] in *. subst r2.
  rewrite main_of_body with (1 := E1), main_of_body with (1 := E2), Hl.
  reflexivity.
Qed.

End TwoServices.

(** *** The properties at work on concrete services *)

Import Service.



(** A library of 21 tracks without lyrics: the listing and 20 lyrics
    requests. *)
Lemma lyrics_requests_follow_the_listing_witness :
  exists urls,
    requests (log (snd (scan_body UpTo311 (serve (bare_library 21)) (State tt []))))
      = library_url :: urls /\
    length urls = 20.
Proof.
  destruct
    (@lyrics_requests_follow_the_listing UpTo311 unit (serve (bare_library 21)) tt tt
       (ok_json (JArr (map numbered_track (seq 0 21))))
       (map numbered_track (seq 0 21))
       (fst (scan_body UpTo311 (serve (bare_library 21)) (State tt [])))
       (snd (scan_body UpTo311 (serve (bare_library 21)) (State tt [])))
       eq_refl eq_refl (surjective_pairing _))
    as (urls & n & Hreq & _ & _ & Hlen & _ & _ & Hfull).
  exists urls. split; [exact Hreq|].
  rewrite Hlen. apply Hfull.
  - vm_compute. lia.
  - left. vm_compute. reflexivity.
Defined.

(** Two tracks without lyrics: the script ends with status 0 after two
    requests, with nothing but [Checking] lines. *)
Lemma no_match_is_an_ordinary_outcome_witness :
  exists evs,
    main UpTo311 (serve (bare_library 2)) tt = (0%Z, listed 2 ++ evs) /\
    Forall quiet evs /\
    map Some (requests evs) = map track_url (map numbered_track (seq 0 2)).
Proof.
  destruct
    (@no_match_is_an_ordinary_outcome UpTo311 unit (serve (bare_library 2))
       tt tt (ok_json (JArr (map numbered_track (seq 0 2))))
       (map numbered_track (seq 0 2)) eq_refl eq_refl)
    as (evs & Hmain & _ & Hquiet & Hreq & _).
  - do 4 eexists. repeat split; try reflexivity.
    + left. intros H. vm_compute in H. discriminate H.
    + do 4 eexists. repeat split; try reflexivity.
      left. intros H. vm_compute in H. discriminate H.
  - exists evs. repeat split; assumption.
Defined.

(** An empty library: the listing request and the line
    [Checking 0 tracks...] are the whole of the run.  No line says
    that nothing was found. *)
Lemma no_match_is_an_ordinary_outcome_counterexample :
  main UpTo311 (serve (bare_library 0)) tt =
    (0%Z, [Get library_url; Print (header_line 0)]) /\
  printed (snd (main UpTo311 (serve (bare_library 0)) tt)) = [header_line 0] /\
  printed (snd (main UpTo311 (serve (bare_library 2)) tt)) =
    [header_line 2; checking_line (JStr (str "t00"));
     checking_line (JStr (str "t01"))].
Proof. repeat split. Qed.

(** A 404 whose body is not JSON. *)
Lemma non_200_is_skipped_witness :
  check_track UpTo311 (serve (bare_library 1)) (numbered_track 0) (State tt []) =
    (Ok Next,
     State tt [Print (checking_line (JStr (str "t00"))); Get (lyrics_url "t00")]).
Proof.
  refine (proj1
    (@non_200_is_skipped UpTo311 unit (serve (bare_library 1)) (numbered_track 0) []
       (JStr (str "t00")) (str "t00") (State tt []) not_found tt
       _ _ _ _)); try reflexivity.
  discriminate.
Defined.

(** A track without [path]: the [KeyError] is printed, once. *)
Lemma every_exception_is_caught_once_witness :
  main UpTo311 (serve pathless) tt =
    (0%Z, listed 1 ++ [Print (error_line (KeyError (str "path")))]).
Proof.
  pose proof (every_exception_is_caught_once UpTo311 (serve pathless) tt)
    as (Hcode & _ & Hraise & _).
  destruct (Hraise (KeyError (str "path")) (State tt (listed 1)) eq_refl)
    as [Hlog _].
  rewrite (surjective_pairing (main UpTo311 (serve pathless) tt)), Hcode, Hlog.
  reflexivity.
Defined.



Lemma lyrics_without_marker_go_on_witness :
  check_track UpTo311 (serve two_tracks) (track "x.mp3") (State tt []) =
    (Ok Next,
     State tt [Print (checking_line (JStr (str "x.mp3")));
               Get (lyrics_url "x.mp3"); Print progress_line]).
Proof.
  refine (proj1
    (@lyrics_without_marker_go_on UpTo311 unit (serve two_tracks) (track "x.mp3") []
       (JStr (str "x.mp3")) (str "x.mp3") (State tt [])
       (ok_json (JObj [(str "syncedLyrics", JStr (str "hello world"))])) tt
       [(str "syncedLyrics", JStr (str "hello world"))] (str "hello world")
       _ _ _ _ _ _ _ _)); try reflexivity.
  - discriminate.
  - intros Hsub. apply contains_substring in Hsub. discriminate Hsub.
Defined.

Lemma empty_lyrics_are_passed_silently_witness :
  check_track UpTo311 (serve instrumental) (track "a/b c.mp3") (State tt []) =
    (Ok Next,
     State tt [Print (checking_line (JStr (str "a/b c.mp3")));
               Get (lyrics_url "a%2Fb%20c.mp3")]).
Proof.
  refine (proj1
    (@empty_lyrics_are_passed_silently UpTo311 unit (serve instrumental)
       (track "a/b c.mp3") [] (JStr (str "a/b c.mp3")) (str "a%2Fb%20c.mp3")
       (State tt [])
       (ok_json (JObj [(str "syncedLyrics", JNull);
                       (str "plainLyrics", JStr (str "la la"))]))
       tt
       [(str "syncedLyrics", JNull); (str "plainLyrics", JStr (str "la la"))]
       _ _ _ _ _ _)); try reflexivity.
  right. left. reflexivity.
Defined.

Lemma two_tracks_alike (url : pystr) :
  responses_alike (Ok (answer two_tracks url))
                  (Ok (answer two_tracks_plain url)).
Proof.
  assert (Hother : forall v p key,
             key <> str "plainLyrics" ->
             lookup key [(str "syncedLyrics", v)] =
             lookup key [(str "syncedLyrics", v); (str "plainLyrics", p)]).
  { intros v p key Hkey. cbn [lookup].
    destruct (str_eqb key (str "syncedLyrics")); [reflexivity|].
    now rewrite (str_eqb_neq Hkey). }
  unfold two_tracks, two_tracks_plain. cbn [answer].
  destruct (str_eqb url library_url).
  { split; [reflexivity | left; reflexivity]. }
  destruct (str_eqb url (lyrics_url "x.mp3")).
  { split; [reflexivity|]. right. do 2 eexists.
    split; [reflexivity|]. split; [reflexivity|]. apply Hother. }
  destruct (str_eqb url (lyrics_url "y.mp3")).
  { split; [reflexivity|]. right. do 2 eexists.
    split; [reflexivity|]. split; [reflexivity|]. apply Hother. }
  split; reflexivity.
Qed.

(** With and without [plainLyrics] the script does the same, although
    the plain text of [x.mp3] has the marker. *)
Lemma plain_lyrics_are_never_inspected_witness :
  main UpTo311 (serve two_tracks) tt = main UpTo311 (serve two_tracks_plain) tt.
Proof.
  refine
    (proj2 (proj2
       (@plain_lyrics_are_never_inspected UpTo311 unit unit
          (serve two_tracks) (serve two_tracks_plain) (fun _ _ => True)
          _ _ tt tt I))).
  - intros url w1 w2 _. split; [apply two_tracks_alike | exact I].
  - reflexivity.
Defined.

End Claims.


(* ================================================================= *)
(** ** Further properties of the script *)

Module Extras.
Import Py Urllib Scanner Spec PyFacts UrllibFacts ScannerFacts QuoteFacts
  RunFacts.

Section OneService.

Variable py : python.
Variable World : Type.
Variable http_get : pystr -> World -> result response * World.

Local Abbreviation check_track := (check_track py http_get).
Local Abbreviation for_tracks := (for_tracks py http_get).
Local Abbreviation scan_body := (scan_body py http_get).
Local Abbreviation main := (main py http_get).

(** X1.  When the listing request raises, or its body is not JSON, the
    script prints the error and ends with status 0 without any lyrics
    request and without the [Checking ... tracks...] line. *)
Theorem listing_failure_ends_the_scan (w w1 : World) e :
  http_get library_url w = (Raise e, w1) \/
  (exists lib, http_get library_url w = (Ok lib, w1) /\ json lib = Raise e) ->
  scan_body (State w []) = (Raise e, State w1 [Get library_url]) /\
  main w = (0%Z, [Get library_url; Print (error_line e)]).
Proof.
  intros H.
  assert (Hbody : scan_body (State w []) = (Raise e, State w1 [Get library_url])).
  { run. destruct H as [H | (lib & H & Hjson)]; rewrite H; run; trivial.
    now rewrite Hjson. }
  split; [exact Hbody|]. now rewrite main_of_body with (1 := Hbody).
Qed.

(** X2.  A listing that is JSON but not a list never leads to a lyrics
    request.  An object gets its number of keys printed as the number
    of tracks and then the exception of [tracks[:20]] on a dict:
    [TypeError] up to Python 3.11, [KeyError] from 3.12 on.  A
    non-empty string gets its length printed and a [TypeError] on its
    first character; the empty string passes as an empty library; null,
    a boolean or a number raise [TypeError] before anything is
    printed. *)
Theorem library_that_is_no_list (w w1 : World) lib v :
  http_get library_url w = (Ok lib, w1) ->
  json lib = Ok v ->
  (forall tracks, v <> JArr tracks) ->
  requests (snd (main w)) = [library_url] /\
  main w =
    (0%Z,
     match v with
     | JStr [] => listed 0
     | JStr s => listed (length s) ++ [Print (error_line TypeError)]
     | JObj fields =>
         listed (length fields) ++
         [Print (error_line match py with
                            | UpTo311 => TypeError
                            | From312 => KeyErrorSlice 20
                            end)]
     | _ => [Get library_url; Print (error_line TypeError)]
     end).
Proof.
  intros Hget Hjson Hlist.
  assert (Hmain : main w =
    (0%Z,
     match v with
     | JStr [] => listed 0
     | JStr s => listed (length s) ++ [Print (error_line TypeError)]
     | JObj fields =>
         listed (length fields) ++
         [Print (error_line match py with
                            | UpTo311 => TypeError
                            | From312 => KeyErrorSlice 20
                            end)]
     | _ => [Get library_url; Print (error_line TypeError)]
     end)).
  { unfold Scanner.main, search_track_with_lyrics. run.
    rewrite Hget. run. rewrite Hjson. run.
    destruct v as [| | | |[|c s]|tracks|fields]; try reflexivity.
    - now destruct (Hlist tracks).
    - now destruct py. }
  split; [|exact Hmain]. rewrite Hmain. cbn [snd].
  destruct v as [| | | |[|c s]|tracks|fields]; reflexivity.
Qed.

(** X3.  Whatever the service answers, the script sends at most 21
    requests: the first to [/api/library], each of the others (at most
    20) to a URL under [/api/lyrics/] whose path segment holds only
    always-safe characters and percent escapes, and which is not the
    listing URL. *)
Theorem requests_are_bounded_and_confined (w : World) :
  exists urls,
    requests (snd (main w)) = library_url :: urls /\
    length urls <= 20 /\
    Forall (fun url => lyrics_request url /\ url <> library_url) urls.
Proof.
  destruct (scan_body (State w [])) as [r s'] eqn:Hbody.
  rewrite main_of_body with (1 := Hbody). cbn [snd].
  assert (Hreq : requests (match r with
                           | Ok _ => log s'
                           | Raise e => log s' ++ [Print (error_line e)]
                           end) = requests (log s')).
  { destruct r; [reflexivity|]. rewrite requests_app. apply app_nil_r. }
  rewrite Hreq. clear Hreq. revert Hbody. run.
  destruct (http_get library_url w) as [[lib|e] w1]; run.
  2: { intros H; inversion H; subst. exists [].
       split; [reflexivity | split; [cbn; lia | constructor]]. }
  destruct (json lib) as [tracks|e]; run.
  2: { intros H; inversion H; subst. exists [].
       split; [reflexivity | split; [cbn; lia | constructor]]. }
  destruct (py_len tracks) as [n|e]; run.
  2: { intros H; inversion H; subst. exists [].
       split; [reflexivity | split; [cbn; lia | constructor]]. }
  destruct (py_slice py 20 tracks) as [first20|e] eqn:Hslice; run.
  2: { intros H; inversion H; subst. exists [].
       split; [reflexivity | split; [cbn; lia | constructor]]. }
  destruct (py_iter first20) as [items|e] eqn:Hiter; run.
  2: { intros H; inversion H; subst. exists [].
       split; [reflexivity | split; [cbn; lia | constructor]]. }
  intros H. apply for_tracks_log in H.
  destruct H as (evs & k & L & _ & Hk & R & _). cbn [log] in L.
  pose proof (@sliced_items py 20 tracks first20 items Hslice Hiter) as Hlen.
  exists (requests evs). rewrite L, requests_app. split; [reflexivity|]. split.
  - apply (f_equal (@length _)) in R.
    rewrite !length_map, length_firstn in R. lia.
  - eapply map_some_inv; [|exact R]. intros track url Hurl.
    pose proof (track_url_request _ Hurl) as Hshape. split; [exact Hshape|].
    destruct Hshape as (quoted & -> & _). apply lyrics_url_not_library.
Qed.

(** X4.  A track without a [path] key, or that is no object at all,
    makes the loop body raise ([KeyError] for the missing key,
    [TypeError] otherwise) before anything is printed or requested for
    it. *)
Theorem track_without_path_raises track (s : state World) :
  (forall fields, track = JObj fields -> lookup (str "path") fields = None) ->
  check_track track s =
    (Raise match track with
           | JObj _ => KeyError (str "path")
           | _ => TypeError
           end, s).
Proof.
  intros H. rewrite check_track_unfold. unfold py_getitem.
  destruct track; trivial. now rewrite (H fields eq_refl).
Qed.


(** X6.  When the lyrics request raises, or is answered with status 200
    and a body that is not JSON, the loop body raises that exception
    after the [Checking] line and the request; nothing is printed for
    the track. *)
Theorem failed_lookup_raises track path quoted (s : state World) (w : World) e :
  py_getitem track (str "path") = Ok path ->
  quote path = Ok quoted ->
  http_get (lyrics_base ++ quoted) (world s) = (Raise e, w) \/
  (exists resp,
      http_get (lyrics_base ++ quoted) (world s) = (Ok resp, w) /\
      status_code resp = 200%Z /\ json resp = Raise e) ->
  check_track track s =
    (Raise e,
     State w (log s ++ [Print (checking_line path);
                        Get (lyrics_base ++ quoted)])).
Proof.
  intros Hpath Hquote H.
  rewrite check_track_answered with (1 := Hpath) (2 := Hquote).
  destruct H as [H | (resp & H & Hstatus & Hjson)]; rewrite H; unfold Spec.verdict.
  - reflexivity.
  - now rewrite Hstatus, Z.eqb_refl, Hjson.
Qed.

(** X7.  A 200 response whose body is JSON but no object raises
    [AttributeError] (it has no [get]); an object whose [syncedLyrics]
    is [true] or a number other than zero raises [TypeError] at the
    substring test.  Either way the loop body raises after the request,
    with nothing printed for the response. *)
Theorem malformed_lyrics_body_raises
    track path quoted (s : state World) resp (w : World) data :
  py_getitem track (str "path") = Ok path ->
  quote path = Ok quoted ->
  http_get (lyrics_base ++ quoted) (world s) = (Ok resp, w) ->
  status_code resp = 200%Z ->
  json resp = Ok data ->
  (forall fields,
      data = JObj fields ->
      exists v, lookup (str "syncedLyrics") fields = Some v /\
                py_truthy v = true /\ is_scalar v = true) ->
  check_track track s =
    (Raise match data with
           | JObj _ => TypeError
           | _ => AttributeError
           end,
     State w (log s ++ [Print (checking_line path);
                        Get (lyrics_base ++ quoted)])).
Proof.
  intros Hpath Hquote Hget Hstatus Hjson H.
  rewrite check_track_answered with (1 := Hpath) (2 := Hquote).
  rewrite Hget. unfold Spec.verdict.
  rewrite Hstatus, Z.eqb_refl, Hjson.
  destruct data; trivial.
  destruct (H fields eq_refl) as (v & Hv & Htrue & Hscalar).
  destruct (field_or_empty_object fields (str "plainLyrics")) as [plain ->].
  unfold field_or_empty, py_get, py_or. rewrite Hv, Htrue.
  now destruct v.
Qed.

(** X8.  A [syncedLyrics] of any type that Python takes for false
    ([false], [0], [0.0], an empty list or object, as well as null and
    the empty string) is read as the empty string: the track is passed
    without a line. *)
Theorem falsy_synced_lyrics_pass_silently
    track path quoted (s : state World) resp (w : World) fields v :
  py_getitem track (str "path") = Ok path ->
  quote path = Ok quoted ->
  http_get (lyrics_base ++ quoted) (world s) = (Ok resp, w) ->
  status_code resp = 200%Z ->
  json resp = Ok (JObj fields) ->
  lookup (str "syncedLyrics") fields = Some v ->
  py_truthy v = false ->
  check_track track s =
    (Ok Next,
     State w (log s ++ [Print (checking_line path);
                        Get (lyrics_base ++ quoted)])).
Proof.
  intros Hpath Hquote Hget Hstatus Hjson Hv Hfalse.
  rewrite check_track_answered with (1 := Hpath) (2 := Hquote).
  rewrite Hget. unfold Spec.verdict.
  rewrite Hstatus, Z.eqb_refl, Hjson.
  destruct (field_or_empty_object fields (str "plainLyrics")) as [plain ->].
  unfold field_or_empty, py_get, py_or. rewrite Hv, Hfalse. reflexivity.
Qed.

(** X9.  A [syncedLyrics] that is a list matches when one of its
    elements is the string [" / "] itself: the track is reported, the
    snippet being the first 200 elements of the list. *)
Theorem list_of_lyrics_matches_on_an_element
    track path quoted (s : state World) resp (w : World) fields items :
  py_getitem track (str "path") = Ok path ->
  quote path = Ok quoted ->
  http_get (lyrics_base ++ quoted) (world s) = (Ok resp, w) ->
  status_code resp = 200%Z ->
  json resp = Ok (JObj fields) ->
  lookup (str "syncedLyrics") fields = Some (JArr items) ->
  In (JStr marker) items ->
  check_track track s =
    (Ok Return,
     State w (log s ++ Print (checking_line path)
                    :: Get (lyrics_base ++ quoted)
                    :: report_of path (JArr (firstn 200 items)))).
Proof.
  intros Hpath Hquote Hget Hstatus Hjson Hv Hin.
  rewrite check_track_answered with (1 := Hpath) (2 := Hquote).
  rewrite Hget. unfold Spec.verdict.
  rewrite Hstatus, Z.eqb_refl, Hjson.
  destruct (field_or_empty_object fields (str "plainLyrics")) as [plain ->].
  unfold field_or_empty, py_get, py_or. rewrite Hv.
  assert (Htrue : py_truthy (JArr items) = true) by now destruct items.
  rewrite Htrue. unfold py_in.
  assert (Hex : existsb (fun x => match x with
                                  | JStr t => str_eqb marker t
                                  | _ => false
                                  end) items = true).
  { apply existsb_exists. exists (JStr marker). split; [exact Hin|].
    apply str_eqb_refl. }
  rewrite Hex. reflexivity.
Qed.

(** X10.  A [syncedLyrics] that is an object with a key [" / "] passes
    the test, but cannot be sliced: the first two lines of the report
    are printed, then the loop body raises the exception of
    [synced[:200]] on a dict, [TypeError] up to Python 3.11 and
    [KeyError] from 3.12 on. *)
Theorem object_as_lyrics_breaks_the_report
    track path quoted (s : state World) resp (w : World) fields inner x :
  py_getitem track (str "path") = Ok path ->
  quote path = Ok quoted ->
  http_get (lyrics_base ++ quoted) (world s) = (Ok resp, w) ->
  status_code resp = 200%Z ->
  json resp = Ok (JObj fields) ->
  lookup (str "syncedLyrics") fields = Some (JObj inner) ->
  lookup marker inner = Some x ->
  check_track track s =
    (Raise match py with
           | UpTo311 => TypeError
           | From312 => KeyErrorSlice 200
           end,
     State w (log s ++ [Print (checking_line path);
                        Get (lyrics_base ++ quoted);
                        Print (found_line path);
                        Print [Text (str "--- Snippet ---")]])).
Proof.
  intros Hpath Hquote Hget Hstatus Hjson Hv Hkey.
  rewrite check_track_answered with (1 := Hpath) (2 := Hquote).
  rewrite Hget. unfold Spec.verdict.
  rewrite Hstatus, Z.eqb_refl, Hjson.
  destruct (field_or_empty_object fields (str "plainLyrics")) as [plain ->].
  unfold field_or_empty, py_get, py_or. rewrite Hv.
  assert (Htrue : py_truthy (JObj inner) = true)
    by (destruct inner; [discriminate Hkey | reflexivity]).
  rewrite Htrue. unfold py_in.
  assert (Hex : existsb (fun kv => str_eqb marker (fst kv)) inner = true).
  { clear - Hkey. induction inner as [|[k y] inner IH]; [discriminate|].
    cbn [lookup existsb fst] in *.
    destruct (str_eqb marker k); [reflexivity | now apply IH]. }
  rewrite Hex. now destruct py.
Qed.

(** X11.  An exception in the loop body ends the whole scan: when the
    loop has passed the tracks before a track and the body raises on
    it, the [try] block is left with that exception, the script prints
    the error after what was printed so far and ends with status 0, and
    no track after it is requested, whatever lyrics it has. *)
Theorem exception_in_a_track_ends_the_scan
    (w w1 : World) lib tracks before track after (s1 s2 : state World) e :
  http_get library_url w = (Ok lib, w1) ->
  json lib = Ok (JArr tracks) ->
  firstn 20 tracks = before ++ track :: after ->
  for_tracks before (State w1 (listed (length tracks))) = (Ok Next, s1) ->
  check_track track s1 = (Raise e, s2) ->
  scan_body (State w []) = (Raise e, s2) /\
  main w = (0%Z, log s2 ++ [Print (error_line e)]) /\
  exists urls,
    requests (log s2 ++ [Print (error_line e)]) = library_url :: urls /\
    (map Some urls = map track_url before \/
     map Some urls = map track_url (before ++ [track])).
Proof.
  intros Hlib Hjson Hsplit Hbefore Htrack.
  assert (Hbody : scan_body (State w []) = (Raise e, s2)).
  { rewrite scan_body_listed with (1 := Hlib) (2 := Hjson).
    rewrite Hsplit, for_tracks_app with (1 := Hbefore).
    now apply for_tracks_raise. }
  split; [exact Hbody|]. split; [now rewrite main_of_body with (1 := Hbody)|].
  apply for_tracks_log in Hbefore.
  destruct Hbefore as (evs & n & L & _ & _ & R & Q).
  destruct (Q eq_refl) as [-> _]. rewrite firstn_all in R. cbn [log] in L.
  apply check_track_log in Htrack.
  destruct Htrack as (evs' & L' & _ & R' & _).
  exists (requests evs ++ requests evs'). split.
  - rewrite L', L, !requests_app. cbn. now rewrite app_nil_r.
  - rewrite R'. destruct (track_url track) as [url|] eqn:Hurl.
    + right. rewrite !map_app, R. cbn [map]. now rewrite Hurl.
    + left. cbn. now rewrite app_nil_r.
Qed.

(** X12.  In every run at most one line [FOUND ROMAJI LYRICS for ...]
    is printed; and when the [try] block is left by the [return], the
    log is the listing request, the [Checking n tracks...] line, then
    only requests, [Checking] lines and progress lines, and at its end
    the four lines of the report. *)
Theorem match_is_reported_at_most_once (w : World) :
  length (filter is_found_line (printed (snd (main w)))) <= 1 /\
  (forall s',
      scan_body (State w []) = (Ok Return, s') ->
      exists n before path snippet,
        snd (main w) =
          Get library_url :: Print (header_line n)
            :: before ++ report_of path snippet /\
        Forall quiet before).
Proof.
  destruct (scan_body (State w [])) as [r s1] eqn:Hbody.
  rewrite main_of_body with (1 := Hbody). cbn [snd].
  assert (Hlog : exists evs,
             log s1 = [Get library_url] ++ evs /\
             length (filter is_found_line (printed evs)) <= 1 /\
             (r = Ok Return ->
              exists n before path snippet,
                evs = Print (header_line n)
                        :: before ++ report_of path snippet /\
                Forall quiet before)).
  { revert Hbody. run.
    destruct (http_get library_url w) as [[lib|e] w1]; run.
    2: { intros H; inversion H; subst. exists [].
         split; [reflexivity | split; [cbn; lia | discriminate]]. }
    destruct (json lib) as [tracks|e]; run.
    2: { intros H; inversion H; subst. exists [].
         split; [reflexivity | split; [cbn; lia | discriminate]]. }
    destruct (py_len tracks) as [n|e]; run.
    2: { intros H; inversion H; subst. exists [].
         split; [reflexivity | split; [cbn; lia | discriminate]]. }
    destruct (py_slice py 20 tracks) as [first20|e]; run.
    2: { intros H; inversion H; subst. eexists.
         split; [reflexivity | split; [cbn; lia | discriminate]]. }
    destruct (py_iter first20) as [items|e]; run.
    2: { intros H; inversion H; subst. eexists.
         split; [reflexivity | split; [cbn; lia | discriminate]]. }
    intros H. apply for_tracks_report in H.
    destruct H as (evs & L & C & R). cbn [log] in L.
    exists (Print (header_line n) :: evs). split; [exact L|]. split.
    - exact C.
    - intros Hr. destruct (R Hr) as (before & path & snippet & -> & Q).
      now exists n, before, path, snippet. }
  destruct Hlog as (evs & L & C & R). split.
  - destruct r as [f|e]; rewrite L, ?printed_app, ?filter_app, ?length_app;
      cbn; fold (printed evs); lia.
  - intros s' H. inversion H; subst.
    destruct (R eq_refl) as (n & before & path & snippet & -> & Q).
    exists n, before, path, snippet. split; [now rewrite L | exact Q].
Qed.

End OneService.


(** X15.  Two tracks are looked up under the same URL only when they
    have the same path. *)
Theorem same_url_same_path track1 track2 url :
  track_url track1 = Some url ->
  track_url track2 = Some url ->
  py_getitem track1 (str "path") = py_getitem track2 (str "path").
Proof.
  unfold track_url. intros H1 H2.
  destruct (py_getitem track1 (str "path")) as [p1|]; [|discriminate].
  destruct (py_getitem track2 (str "path")) as [p2|]; [|discriminate].
  destruct (quote p1) as [q1|] eqn:Hq1; [|discriminate].
  destruct (quote p2) as [q2|] eqn:Hq2; [|discriminate].
  injection H1 as <-. injection H2 as H2. subst q2.
  destruct p1; try discriminate. destruct p2; try discriminate.
  apply unquote_of_quote in Hq1, Hq2. congruence.
Qed.


(** X17.  The quoted path is ASCII, at least as long as the path and at
    most twelve times as long (four bytes for a character, three
    characters for a byte). *)
Theorem quoted_path_is_ascii_and_bounded path quoted :
  quote (JStr path) = Ok quoted ->
  Forall (fun c => (c < 128)%N) quoted /\
  length path <= length quoted <= 12 * length path.
Proof.
  unfold quote. destruct (utf8 path) as [bs|] eqn:Hutf; [|discriminate].
  intros H. injection H as <-. split.
  - eapply Forall_impl; [apply quoted_char_ascii|].
    apply quote_bytes_chars. eapply utf8_bytes; eauto.
  - pose proof (utf8_length _ Hutf). pose proof (quote_bytes_length bs). lia.
Qed.

Section Header.

Variable py : python.
Variable World : Type.
Variable http_get : pystr -> World -> result response * World.

(** X18.  The line [Checking n tracks...] gives the length of the whole
    listing, not the number of tracks that are looked at: it is the
    second entry of the log for a listing of any length, while the
    entries after it hold at most 20 requests. *)
Theorem header_counts_the_whole_library (w w1 : World) lib tracks :
  http_get library_url w = (Ok lib, w1) ->
  json lib = Ok (JArr tracks) ->
  exists evs,
    snd (main py http_get w) =
      [Get library_url; Print (header_line (Z.of_nat (length tracks)))] ++ evs /\
    length (requests evs) <= 20.
Proof.
  intros Hlib Hjson.
  destruct (scan_body py http_get (State w [])) as [r s'] eqn:Hbody.
  rewrite main_of_body with (1 := Hbody). cbn [snd].
  rewrite scan_body_listed with (1 := Hlib) (2 := Hjson) in Hbody.
  apply for_tracks_log in Hbody.
  destruct Hbody as (evs & n & L & _ & Hn & R & _). cbn [log] in L.
  apply (f_equal (@length _)) in R.
  rewrite !length_map, !length_firstn in *.
  destruct r as [f|e].
  - exists evs. split; [exact L | lia].
  - exists (evs ++ [Print (error_line e)]). split.
    + now rewrite L, app_assoc.
    + rewrite requests_app, length_app. cbn. lia.
Qed.

End Header.

(** *** The properties at work *)

Import Service.

(** 21 tracks are announced, 20 are looked at. *)
Lemma header_counts_the_whole_library_witness :
  exists evs,
    snd (main UpTo311 (serve (bare_library 21)) tt) =
      [Get library_url; Print (header_line 21)] ++ evs /\
    length (requests evs) <= 20.
Proof.
  exact (@header_counts_the_whole_library UpTo311 unit (serve (bare_library 21)) tt tt
           (ok_json (JArr (map numbered_track (seq 0 21))))
           (map numbered_track (seq 0 21)) eq_refl eq_refl).
Defined.

(** Nothing listens on the port. *)
Lemma listing_failure_ends_the_scan_witness :
  main UpTo311 play [] = (0%Z, [Get library_url; Print (error_line connection_error)]).
Proof.
  refine (proj2 (@listing_failure_ends_the_scan UpTo311 script play [] []
                   connection_error _)).
  left. reflexivity.
Defined.

(** A listing wrapped in an object, [{"tracks": []}], under
    Python 3.12. *)
Lemma library_that_is_no_list_witness :
  main From312 play [Ok (ok_json (JObj [(str "tracks", JArr [])]))] =
    (0%Z, listed 1 ++ [Print (error_line (KeyErrorSlice 20))]).
Proof.
  refine (proj2 (@library_that_is_no_list From312 script play
                   [Ok (ok_json (JObj [(str "tracks", JArr [])]))] []
                   (ok_json (JObj [(str "tracks", JArr [])]))
                   (JObj [(str "tracks", JArr [])]) _ _ _));
    try reflexivity.
  discriminate.
Defined.

Lemma track_without_path_raises_witness :
  check_track UpTo311 play (JObj []) (State [] []) =
    (Raise (KeyError (str "path")), State [] []).
Proof.
  refine (@track_without_path_raises UpTo311 script play (JObj []) (State [] []) _).
  intros fields H. injection H as <-. reflexivity.
Defined.


(** A 200 with an empty body. *)
Lemma failed_lookup_raises_witness :
  check_track UpTo311 play (track "x.mp3")
    (State [Ok (Response 200 (Raise (LibraryError (str "Expecting value"))))]
           []) =
    (Raise (LibraryError (str "Expecting value")),
     State [] [Print (checking_line (JStr (str "x.mp3")));
               Get (lyrics_url "x.mp3")]).
Proof.
  refine (@failed_lookup_raises UpTo311 script play (track "x.mp3")
            (JStr (str "x.mp3")) (str "x.mp3")
            (State [Ok (Response 200
                          (Raise (LibraryError (str "Expecting value"))))] [])
            [] (LibraryError (str "Expecting value")) eq_refl eq_refl _).
  right. eexists. repeat split.
Defined.

(** A body that is a list. *)
Lemma malformed_lyrics_body_raises_witness :
  check_track UpTo311 play (track "x.mp3") (State [Ok (ok_json (JArr []))] []) =
    (Raise AttributeError,
     State [] [Print (checking_line (JStr (str "x.mp3")));
               Get (lyrics_url "x.mp3")]).
Proof.
  refine (@malformed_lyrics_body_raises UpTo311 script play (track "x.mp3")
            (JStr (str "x.mp3")) (str "x.mp3")
            (State [Ok (ok_json (JArr []))] []) (ok_json (JArr [])) []
            (JArr []) eq_refl eq_refl eq_refl eq_refl eq_refl _).
  discriminate.
Defined.

(** [{"syncedLyrics": false}] *)
Lemma falsy_synced_lyrics_pass_silently_witness :
  check_track UpTo311 play (track "x.mp3")
    (State [Ok (ok_json (JObj [(str "syncedLyrics", JBool false)]))] []) =
    (Ok Next,
     State [] [Print (checking_line (JStr (str "x.mp3")));
               Get (lyrics_url "x.mp3")]).
Proof.
  exact (@falsy_synced_lyrics_pass_silently UpTo311 script play (track "x.mp3")
           (JStr (str "x.mp3")) (str "x.mp3")
           (State [Ok (ok_json (JObj [(str "syncedLyrics", JBool false)]))] [])
           (ok_json (JObj [(str "syncedLyrics", JBool false)])) []
           [(str "syncedLyrics", JBool false)] (JBool false)
           eq_refl eq_refl eq_refl eq_refl eq_refl eq_refl eq_refl).
Defined.

(** [{"syncedLyrics": ["a", " / "]}] *)
Lemma list_of_lyrics_matches_on_an_element_witness :
  check_track UpTo311 play (track "x.mp3")
    (State [Ok (ok_json (JObj [(str "syncedLyrics",
                                JArr [JStr (str "a"); JStr marker])]))] []) =
    (Ok Return,
     State [] (Print (checking_line (JStr (str "x.mp3")))
                 :: Get (lyrics_url "x.mp3")
                 :: report_of (JStr (str "x.mp3"))
                              (JArr [JStr (str "a"); JStr marker]))).
Proof.
  refine (@list_of_lyrics_matches_on_an_element UpTo311 script play (track "x.mp3")
            (JStr (str "x.mp3")) (str "x.mp3")
            (State [Ok (ok_json (JObj [(str "syncedLyrics",
                                        JArr [JStr (str "a"); JStr marker])]))]
                   [])
            (ok_json (JObj [(str "syncedLyrics",
                             JArr [JStr (str "a"); JStr marker])])) []
            [(str "syncedLyrics", JArr [JStr (str "a"); JStr marker])]
            [JStr (str "a"); JStr marker]
            eq_refl eq_refl eq_refl eq_refl eq_refl eq_refl _).
  right. left. reflexivity.
Defined.

(** [{"syncedLyrics": {" / ": null}}] *)
Lemma object_as_lyrics_breaks_the_report_witness :
  check_track UpTo311 play (track "x.mp3")
    (State [Ok (ok_json (JObj [(str "syncedLyrics",
                                JObj [(marker, JNull)])]))] []) =
    (Raise TypeError,
     State [] [Print (checking_line (JStr (str "x.mp3")));
               Get (lyrics_url "x.mp3");
               Print (found_line (JStr (str "x.mp3")));
               Print [Text (str "--- Snippet ---")]]).
Proof.
  exact (@object_as_lyrics_breaks_the_report UpTo311 script play (track "x.mp3")
           (JStr (str "x.mp3")) (str "x.mp3")
           (State [Ok (ok_json (JObj [(str "syncedLyrics",
                                       JObj [(marker, JNull)])]))] [])
           (ok_json (JObj [(str "syncedLyrics", JObj [(marker, JNull)])])) []
           [(str "syncedLyrics", JObj [(marker, JNull)])]
           [(marker, JNull)] JNull
           eq_refl eq_refl eq_refl eq_refl eq_refl eq_refl eq_refl).
Defined.

(** A track without path before [y.mp3]: the romaji lyrics that the
    service holds ready are never asked for. *)
Lemma exception_in_a_track_ends_the_scan_witness :
  main UpTo311 play [Ok (ok_json (JArr [JObj []; track "y.mp3"])); Ok (ok_json romaji)] =
    (0%Z, listed 2 ++ [Print (error_line (KeyError (str "path")))]).
Proof.
  refine (proj1 (proj2
    (@exception_in_a_track_ends_the_scan UpTo311 script play
       [Ok (ok_json (JArr [JObj []; track "y.mp3"])); Ok (ok_json romaji)]
       [Ok (ok_json romaji)]
       (ok_json (JArr [JObj []; track "y.mp3"]))
       [JObj []; track "y.mp3"] [] (JObj []) [track "y.mp3"]
       (State [Ok (ok_json romaji)] (listed 2))
       (State [Ok (ok_json romaji)] (listed 2))
       (KeyError (str "path")) _ _ _ _ _))); reflexivity.
Defined.

Lemma match_is_reported_at_most_once_witness :
  exists n before path snippet,
    snd (main UpTo311 (serve two_tracks) tt) =
      Get library_url :: Print (header_line n)
        :: before ++ report_of path snippet /\
    Forall quiet before.
Proof.
  refine (proj2 (@match_is_reported_at_most_once UpTo311 unit (serve two_tracks) tt)
                (snd (scan_body UpTo311 (serve two_tracks) (State tt []))) _).
  reflexivity.
Defined.


Lemma same_url_same_path_witness :
  py_getitem (JObj [(str "path", JStr (str "x.mp3")); (str "title", JNull)])
             (str "path") =
  py_getitem (JObj [(str "title", JStr (str "x")); (str "path", JStr (str "x.mp3"))])
             (str "path").
Proof.
  exact (@same_url_same_path
           (JObj [(str "path", JStr (str "x.mp3")); (str "title", JNull)])
           (JObj [(str "title", JStr (str "x"));
                  (str "path", JStr (str "x.mp3"))])
           (lyrics_url "x.mp3") eq_refl eq_refl).
Defined.


Lemma quoted_path_is_ascii_and_bounded_witness :
  Forall (fun c => (c < 128)%N) (str "a%2Fb%20c.mp3") /\
  length (str "a/b c.mp3") <= length (str "a%2Fb%20c.mp3")
    <= 12 * length (str "a/b c.mp3").
Proof.
  exact (@quoted_path_is_ascii_and_bounded (str "a/b c.mp3")
           (str "a%2Fb%20c.mp3") eq_refl).
Defined.

End Extras.
